(** * ATtiny10 Thermometer: a shallow embedding of ATtiny10Thermometer.ino

    The firmware drives a DS18B20 temperature sensor over a bit-banged
    one-wire bus, validates the scratchpad with a CRC-8, flashes the result
    on two LEDs and sleeps on the watchdog timer.

    Modelling choices.
    - Machine integers are [Z] with the wrap-around written out ([u8],
      [u16], [to_int16]); on the ATtiny10 [int] is 16 bits wide.
    - The hardware state the code touches is the record [hw].  Every
      externally visible action (bus pin transitions, timed delays, bus
      samples, LED port writes, watchdog sleeps and wake-ups) is appended to
      [trace].
    - The one-wire bus is an environment [bus : list event -> bool]: the
      level the external circuitry gives the released line, as a function of
      everything that happened so far.
    - Code runs in the monad [M A := hw -> option (A * hw)]; [None] stands
      for a run that yields no result (the unbounded poll loop out of fuel,
      a sleep nothing wakes, an access outside [DataBytes]). *)

From Stdlib Require Import ZArith List Bool Lia.
Import ListNotations.
Local Open Scope Z_scope.

(** ** Machine integers *)

Definition u8 (x : Z) : Z := x mod 256.
Definition u16 (x : Z) : Z := x mod 65536.
Definition u32 (x : Z) : Z := x mod 4294967296.

(** Conversion of a 16-bit pattern to the signed [int] of the target. *)
Definition to_int16 (x : Z) : Z :=
  let w := u16 x in if w <? 32768 then w else w - 65536.

Definition is_byte (b : Z) : Prop := 0 <= b < 256.

(** ** Hardware state and observable events *)

Inductive event : Type :=
| EvLow                      (* bus pin switched to output, driving low *)
| EvRelease                  (* bus pin switched to input, line released *)
| EvDelay (us : Z)           (* DelayMicros busy-wait of [us] microseconds *)
| EvSample (level : bool)    (* bus pin read; [true] = high *)
| EvPort (v : Z)             (* value written to PORTB (the LEDs) *)
| EvSleep (wdp : Z)          (* CPU put to sleep, watchdog prescale [wdp] *)
| EvWake.                    (* watchdog interrupt woke the CPU *)

Inductive sleep_mode_t : Type :=
| SLEEP_MODE_IDLE
| SLEEP_MODE_ADC
| SLEEP_MODE_PWR_DOWN
| SLEEP_MODE_STANDBY.

Record hw : Type := mkHw {
  DDRB : Z;                  (* port direction register *)
  PORTB : Z;                 (* port data register *)
  WDTCSR : Z;                (* watchdog control register *)
  wd_flag : bool;            (* watchdog interrupt flag, owned by hardware *)
  sleep_mode : sleep_mode_t; (* SMCR sleep-mode field *)
  sleep_en : bool;           (* SMCR sleep-enable bit *)
  DataBytes : list Z;        (* the 9-byte buffer (union with DataWords) *)
  trace : list event
}.

Definition set_DDRB (v : Z) (s : hw) : hw :=
  mkHw v (PORTB s) (WDTCSR s) (wd_flag s) (sleep_mode s) (sleep_en s)
       (DataBytes s) (trace s).
Definition set_PORTB (v : Z) (s : hw) : hw :=
  mkHw (DDRB s) v (WDTCSR s) (wd_flag s) (sleep_mode s) (sleep_en s)
       (DataBytes s) (trace s).
Definition set_WDTCSR (v : Z) (s : hw) : hw :=
  mkHw (DDRB s) (PORTB s) v (wd_flag s) (sleep_mode s) (sleep_en s)
       (DataBytes s) (trace s).
Definition set_wd_flag (v : bool) (s : hw) : hw :=
  mkHw (DDRB s) (PORTB s) (WDTCSR s) v (sleep_mode s) (sleep_en s)
       (DataBytes s) (trace s).
Definition set_sleep_mode_field (v : sleep_mode_t) (s : hw) : hw :=
  mkHw (DDRB s) (PORTB s) (WDTCSR s) (wd_flag s) v (sleep_en s)
       (DataBytes s) (trace s).
Definition set_sleep_en (v : bool) (s : hw) : hw :=
  mkHw (DDRB s) (PORTB s) (WDTCSR s) (wd_flag s) (sleep_mode s) v
       (DataBytes s) (trace s).
Definition set_DataBytes (v : list Z) (s : hw) : hw :=
  mkHw (DDRB s) (PORTB s) (WDTCSR s) (wd_flag s) (sleep_mode s) (sleep_en s)
       v (trace s).
Definition log (e : event) (s : hw) : hw :=
  mkHw (DDRB s) (PORTB s) (WDTCSR s) (wd_flag s) (sleep_mode s) (sleep_en s)
       (DataBytes s) (trace s ++ [e]).

(** ** The state-and-failure monad *)

Definition M (A : Type) : Type := hw -> option (A * hw).

Definition ret {A} (a : A) : M A := fun s => Some (a, s).
Definition fail {A} : M A := fun _ => None.
Definition bind {A B} (c : M A) (k : A -> M B) : M B :=
  fun s => match c s with
           | Some (a, s') => k a s'
           | None => None
           end.
Definition modify (f : hw -> hw) : M unit := fun s => Some (tt, f s).
Definition gets {A} (f : hw -> A) : M A := fun s => Some (f s, s).

Declare Scope m_scope.
Delimit Scope m_scope with m.
Notation "x <- c ;; k" := (bind c (fun x => k))
  (at level 61, c at next level, right associativity) : m_scope.
Notation "c ;; k" := (bind c (fun _ => k))
  (at level 61, right associativity) : m_scope.
Local Open Scope m_scope.

(** ** Constants of the sketch and of the device header *)

Definition OneWirePin : Z := 0.
Definition RedPin : Z := 1.
Definition GreenPin : Z := 2.

Definition ReadROM : Z := 0x33.
Definition MatchROM : Z := 0x55.
Definition SkipROM : Z := 0xCC.
Definition ConvertT : Z := 0x44.
Definition ReadScratchpad : Z := 0xBE.

(** Bit positions of WDTCSR as the avr-libc header of the ATtiny10 gives
    them: WDIE is bit 6, the prescaler WDP is bits 0..2 and bit 5. *)
Definition WDIE : Z := 6.

(** Prescale code programmed in a WDTCSR value (WDP3 is bit 5). *)
Definition wdp_of (r : Z) : Z :=
  Z.lor (Z.land r 7) (Z.shiftl (Z.land (Z.shiftr r 5) 1) 3).

(** Nominal watchdog period in milliseconds: 16ms doubled per code. *)
Definition wd_period_ms (wdp : Z) : Z := 16 * 2 ^ wdp.

(** ** Watchdog timer *)

Definition write_WDTCSR (v : Z) : M unit := modify (set_WDTCSR (u8 v)).

(** [ISR(WDT_vect)] *)
Definition ISR_WDT : M unit :=
  write_WDTCSR (Z.shiftl 0 WDIE).

Definition set_sleep_mode (m : sleep_mode_t) : M unit :=
  modify (set_sleep_mode_field m).

Definition sleep_enable : M unit := modify (set_sleep_en true).

(** Modelled from the spec: [sleep_cpu] (with [set_sleep_mode] and
    [sleep_enable] above) is an avr-libc macro over the SLEEP instruction,
    and the watchdog is hardware; neither is part of the repository.  The
    specification: the call suspends the processor; a timer interrupt fires
    at expiry and execution resumes immediately after the suspend call.

    With the sleep-enable bit clear SLEEP does nothing.  Otherwise the CPU
    halts until the watchdog interrupt, which needs WDIE set; without it
    nothing wakes the CPU.  An interrupt flag that is already pending is
    served at once, without a sleep period.  Taking the interrupt clears the
    flag and runs the handler. *)
Definition sleep_cpu : M unit :=
  fun s =>
    if negb (sleep_en s) then Some (tt, s)
    else if Z.testbit (WDTCSR s) WDIE then
      let s1 := if wd_flag s then s
                else set_wd_flag true (log (EvSleep (wdp_of (WDTCSR s))) s) in
      ISR_WDT (set_wd_flag false (log EvWake s1))
    else None.

(** Use Watchdog for time delay; n=0 is 16ms; n=6 is 1sec ; n=9 is 8secs *)
Definition WDDelay (n : Z) : M unit :=
  set_sleep_mode SLEEP_MODE_PWR_DOWN ;;
  write_WDTCSR (Z.lor (Z.lor (Z.shiftl 1 WDIE) (Z.shiftl (Z.land n 0x8) 2))
                      (Z.land n 0x7)) ;;
  sleep_enable ;;
  sleep_cpu.

(** ** LED display *)

Definition write_PORTB (v : Z) : M unit :=
  modify (fun s => log (EvPort (u8 v)) (set_PORTB (u8 v) s)).

(** Display Error *)
Definition DisplayError (pin : Z) : M unit :=
  p <- gets PORTB ;;
  write_PORTB (Z.lor p (Z.shiftl 1 pin)) ;;            (* Pin high *)
  WDDelay 6 ;;                                         (* 1 second flash *)
  p <- gets PORTB ;;
  write_PORTB (Z.land p (Z.lnot (Z.shiftl 1 pin))) ;;  (* Pin low *)
  WDDelay 6.                                           (* 1 second gap *)

Definition Pulse (pin : Z) : M unit :=
  p <- gets PORTB ;;
  write_PORTB (Z.lor p (Z.shiftl 1 pin)) ;;            (* Pin high *)
  WDDelay 0 ;;                                         (* 12msec flash *)
  p <- gets PORTB ;;
  write_PORTB (Z.land p (Z.lnot (Z.shiftl 1 pin))) ;;  (* Pin low *)
  WDDelay 6.                                           (* 1 second gap *)

(** Convert value to negabinary.  The constant 0xAAAAAAAA does not fit the
    16-bit [int] types, so the sum and the exclusive or are computed in 32
    bits ([unsigned long]) and the result is cut to the 16-bit return type. *)
Definition NegaBinary (value : Z) : Z :=
  u16 (Z.lxor (u32 (u16 value + 0xAAAAAAAA)) 0xAAAAAAAA).

(** [for (int i=7; i>=0; i--)] with [n = i + 1] iterations left. *)
Fixpoint Flash_loop (n : nat) (value : Z) (zeros : Z) : M unit :=
  match n with
  | O => ret tt
  | S n' =>
      let i := Z.of_nat n' in
      let b := Z.land (Z.shiftr value i) 1 in
      if negb (zeros =? 0) || negb (b =? 0) || (i =? 0) then
        (if negb (Z.land (Z.shiftr value i) 1 =? 0)
         then Pulse RedPin else Pulse GreenPin) ;;
        Flash_loop n' value 1
      else Flash_loop n' value zeros
  end.

(** Flash 8-bit integer value skipping leading zeros *)
Definition Flash (value : Z) : M unit :=
  Flash_loop 8 (u16 value) 0.

(** ** One-wire protocol *)

Section Bus.

(** Level of the released line given the history; [true] is high. *)
Variable bus : list event -> bool.

Definition PinLow : M unit :=
  modify (fun s => log EvLow (set_DDRB (u8 (Z.lor (DDRB s) (Z.shiftl 1 OneWirePin))) s)).

Definition PinRelease : M unit :=
  modify (fun s =>
    log EvRelease (set_DDRB (u8 (Z.land (DDRB s) (Z.lnot (Z.shiftl 1 OneWirePin)))) s)).

(** Level of the bus pin: what the port drives while the pin is an output,
    what the bus gives while it is an input. *)
Definition pin_level (s : hw) : bool :=
  if Z.testbit (DDRB s) OneWirePin then Z.testbit (PORTB s) OneWirePin
  else bus (trace s).

(** Returns 0 or 1 *)
Definition PinRead : M Z :=
  fun s => let b := pin_level s in
           Some (Z.land (Z.shiftr (Z.b2z b) OneWirePin) 1, log (EvSample b) s).

(** The timer busy-wait, taken as one timed step of [micro] microseconds. *)
Definition DelayMicros (micro : Z) : M unit :=
  modify (log (EvDelay (u16 micro))).

Definition LowRelease (low high : Z) : M unit :=
  PinLow ;;
  DelayMicros low ;;
  PinRelease ;;
  DelayMicros high.

Definition OneWireReset : M Z :=
  let data := 1 in
  LowRelease 480 70 ;;
  data <- PinRead ;;
  DelayMicros 410 ;;
  ret data.                          (* 0 = device present *)

(** [for (int i = 0; i<8; i++)] with [n] iterations left; [data] is the
    uint8_t parameter, updated in place. *)
Fixpoint OneWireWrite_loop (n : nat) (data : Z) : M unit :=
  match n with
  | O => ret tt
  | S n' =>
      let del := if Z.land data 1 =? 1 then 6 else 60 in
      LowRelease del (70 - del) ;;
      OneWireWrite_loop n' (u8 (Z.shiftr data 1))
  end.

Definition OneWireWrite (data : Z) : M unit :=
  OneWireWrite_loop 8 (u8 data).

Fixpoint OneWireRead_loop (n : nat) (i : Z) (data : Z) : M Z :=
  match n with
  | O => ret data
  | S n' =>
      LowRelease 6 9 ;;
      b <- PinRead ;;
      let data := u8 (Z.lor data (Z.shiftl b i)) in
      DelayMicros 55 ;;
      OneWireRead_loop n' (i + 1) data
  end.

Definition OneWireRead : M Z := OneWireRead_loop 8 0 0.

(** [DataBytes[i] = v]; a store outside the 9-byte buffer has no defined
    result. *)
Fixpoint list_set (l : list Z) (i : nat) (v : Z) : option (list Z) :=
  match l, i with
  | [], _ => None
  | _ :: t, O => Some (v :: t)
  | h :: t, S i' => option_map (cons h) (list_set t i' v)
  end.

Definition store_DataBytes (i : Z) (v : Z) : M unit :=
  fun s => if i <? 0 then None else
           match list_set (DataBytes s) (Z.to_nat i) v with
           | Some l => Some (tt, set_DataBytes l s)
           | None => None
           end.

Definition load_DataBytes (i : Z) : M Z :=
  fun s => if i <? 0 then None else
           match nth_error (DataBytes s) (Z.to_nat i) with
           | Some b => Some (b, s)
           | None => None
           end.

(** [DataWords[i]]: the same storage read as little-endian 16-bit words. *)
Definition load_DataWords (i : Z) : M Z :=
  lo <- load_DataBytes (2 * i) ;;
  hi <- load_DataBytes (2 * i + 1) ;;
  ret (lo + 256 * hi).

(** Read bytes into array, least significant byte first *)
Fixpoint OneWireReadBytes_loop (n : nat) (i : Z) : M unit :=
  match n with
  | O => ret tt
  | S n' =>
      b <- OneWireRead ;;
      store_DataBytes i b ;;
      OneWireReadBytes_loop n' (i + 1)
  end.

Definition OneWireReadBytes (bytes : Z) : M unit :=
  OneWireReadBytes_loop (Z.to_nat bytes) 0.

(** The inner loop of OneWireCRC: [n] rounds of
    [crc = crc>>1 ^ ((crc & 1) ? 0x8c : 0)]. *)
Fixpoint crc_rounds (n : nat) (crc : Z) : Z :=
  match n with
  | O => crc
  | S n' =>
      crc_rounds n'
        (u8 (Z.lxor (Z.shiftr crc 1) (if Z.land crc 1 =? 0 then 0 else 0x8c)))
  end.

Fixpoint OneWireCRC_loop (n : nat) (j : Z) (crc : Z) : M Z :=
  match n with
  | O => ret crc
  | S n' =>
      b <- load_DataBytes j ;;
      let crc := u8 (Z.lxor crc b) in
      let crc := crc_rounds 8 crc in
      OneWireCRC_loop n' (j + 1) crc
  end.

(** Calculate CRC over buffer - 0x00 is correct *)
Definition OneWireCRC (bytes : Z) : M Z :=
  OneWireCRC_loop (Z.to_nat bytes) 0 0.

(** ** Temperature sensor *)

(** [while (OneWireRead() != 0xFF);] -- the loop has no bound of its own;
    [fuel] bounds the number of byte reads. *)
Fixpoint poll (fuel : nat) : M unit :=
  match fuel with
  | O => fail
  | S fuel' =>
      b <- OneWireRead ;;
      if negb (b =? 0xFF) then poll fuel' else ret tt
  end.

(** Lines 162-168: conversion, poll, and scratchpad read. *)
Definition acquire (fuel : nat) : M unit :=
  OneWireWrite SkipROM ;;
  OneWireWrite ConvertT ;;
  poll fuel ;;
  OneWireReset ;;
  OneWireWrite SkipROM ;;
  OneWireWrite ReadScratchpad ;;
  OneWireReadBytes 9.

(** Read temperature of a single DS18B20 or MAX31820 on the bus in 1/16ths
    of a degree *)
Definition Temperature (fuel : nat) : M Z :=
  r <- OneWireReset ;;
  early <-
    (if negb (r =? 0) then
       DisplayError RedPin ;;            (* Device not found *)
       ret None
     else
       acquire fuel ;;
       c <- OneWireCRC 9 ;;
       if c =? 0 then
         w <- load_DataWords 0 ;;
         ret (Some (to_int16 w))
       else
         DisplayError GreenPin ;;        (* CRC error *)
         ret None) ;;
  match early with
  | Some v => ret v
  | None => ret 0
  end.

(** Flash temperature using "Easy Binary" *)
Definition loop (fuel : nat) : M unit :=
  WDDelay 9 ;;                         (* 8 second delay *)
  WDDelay 9 ;;                         (* and another 8 second delay *)
  temp <- Temperature fuel ;;          (* In sixteenths of a degree *)
  temp <- (if temp <? 0 then Pulse GreenPin ;; ret (to_int16 (- temp))
           else ret temp) ;;
  Flash (Z.shiftr temp 4).

End Bus.

(** * Specification vocabulary *)

Section Vocabulary.

Variable bus : list event -> bool.

(** The state after a stretch of bus activity that ends with the line
    released: the pin is an input again and the events are in the trace. *)
Definition bus_run (evs : list event) (s : hw) : hw :=
  mkHw (Z.land (DDRB s) 254) (PORTB s) (WDTCSR s) (wd_flag s) (sleep_mode s)
       (sleep_en s) (DataBytes s) (trace s ++ evs).

(** Events of a bus reset, given the level sampled. *)
Definition reset_events (level : bool) : list event :=
  [EvLow; EvDelay 480; EvRelease; EvDelay 70; EvSample level; EvDelay 410].

(** The level the bus gives at the sample point of a reset begun in [s]. *)
Definition reset_level (s : hw) : bool :=
  bus (trace s ++ [EvLow; EvDelay 480; EvRelease; EvDelay 70]).

(** The pulse pair of one written bit. *)
Definition write_slot (b : bool) : list event :=
  [EvLow; EvDelay (if b then 6 else 60);
   EvRelease; EvDelay (if b then 64 else 10)].

(** The lowest [n] bits of [x], least significant first. *)
Fixpoint bits_lsb (n : nat) (x : Z) : list bool :=
  match n with
  | O => []
  | S n' => Z.testbit x 0 :: bits_lsb n' (Z.shiftr x 1)
  end.

(** The reference CRC-8 in the words of the specification: XOR the byte
    into the accumulator, then 8 rounds of shifting right by one and XOR-ing
    in 0x8C when the bit shifted out was 1. *)
Definition crc8_round (acc : Z) : Z :=
  let out := acc mod 2 in
  let acc' := acc / 2 in
  if out =? 1 then Z.lxor acc' 0x8C else acc'.

Definition crc8_byte (acc b : Z) : Z := Nat.iter 8 crc8_round (Z.lxor acc b).

Definition crc8_ref (l : list Z) : Z := fold_left crc8_byte l 0.

(** The integers from 0 up to [n - 1]; a property of all of them can be
    checked by running it. *)
Definition Z_range (n : nat) : list Z := map Z.of_nat (seq 0 n).

Definition all_bytes : list Z := Z_range 256.

(** The buffer with bit [k] of byte [i] inverted. *)
Fixpoint flip_bit (l : list Z) (i : nat) (k : Z) : list Z :=
  match l, i with
  | [], _ => []
  | b :: t, O => Z.lxor b (2 ^ k) :: t
  | b :: t, S i' => b :: flip_bit t i' k
  end.

(** The value WDDelay(n) programs into WDTCSR. *)
Definition wd_reg (n : Z) : Z :=
  u8 (Z.lor (Z.lor (Z.shiftl 1 WDIE) (Z.shiftl (Z.land n 0x8) 2)) (Z.land n 0x7)).

(** Events of one WDDelay(n): a sleep period ended by the watchdog
    interrupt, or the interrupt alone when one was already pending. *)
Definition sleep_events (n : Z) (pending : bool) : list event :=
  if pending then [EvWake] else [EvSleep (wdp_of (wd_reg n)); EvWake].

(** The state WDDelay leaves: watchdog disarmed, no interrupt pending. *)
Definition slept (evs : list event) (s : hw) : hw :=
  mkHw (DDRB s) (PORTB s) 0 false SLEEP_MODE_PWR_DOWN true (DataBytes s)
       (trace s ++ evs).

(** A sequence of LED pulses, one per pin of the list. *)
Fixpoint pulse_seq (pins : list Z) : M unit :=
  match pins with
  | [] => ret tt
  | p :: t => Pulse p ;; pulse_seq t
  end.

Definition led_of_bit (b : bool) : Z := if b then RedPin else GreenPin.

(** The bits of [v] from its most significant set bit down to bit 0; for
    0 this is the single bit 0. *)
Definition flash_bits (v : Z) : list bool :=
  map (fun j => Z.testbit v (Z.log2 v - Z.of_nat j))
      (seq 0 (S (Z.to_nat (Z.log2 v)))).

(** Bits [n-1] down to 0 of [v]. *)
Fixpoint msb_bits (n : nat) (v : Z) : list bool :=
  match n with
  | O => []
  | S n' => Z.testbit v (Z.of_nat n') :: msb_bits n' v
  end.

(** The bits Flash's loop lets through: everything from the first set bit
    on, and the last bit in any case. *)
Fixpoint flash_scan (bits : list bool) (zeros : bool) : list bool :=
  match bits with
  | [] => []
  | b :: t =>
      if zeros || b || (match t with [] => true | _ => false end)
      then b :: flash_scan t true
      else flash_scan t zeros
  end.

Definition bits_eqb (a b : list bool) : bool :=
  if list_eq_dec Bool.bool_dec a b then true else false.

(** The number of wake events in a trace. *)
Definition count_wakes (l : list event) : nat :=
  length (filter (fun e => match e with EvWake => true | _ => false end) l).

(** A read slot up to the sample point, and the whole slot. *)
Definition read_pre : list event := [EvLow; EvDelay 6; EvRelease; EvDelay 9].

Definition read_slot (level : bool) : list event :=
  read_pre ++ [EvSample level; EvDelay 55].

(** The levels the bus gives in [n] consecutive read slots after history
    [h]. *)
Fixpoint read_bits (n : nat) (h : list event) : list bool :=
  match n with
  | O => []
  | S n' =>
      let b := bus (h ++ read_pre) in
      b :: read_bits n' (h ++ read_slot b)
  end.

(** OneWireRead's accumulation of sampled bits from bit [i] on. *)
Fixpoint assemble (bits : list bool) (i data : Z) : Z :=
  match bits with
  | [] => data
  | b :: t => assemble t (i + 1) (u8 (Z.lor data (Z.shiftl (Z.b2z b) i)))
  end.

(** The byte a read begun in [s] returns, and the state it leaves. *)
Definition read_value (s : hw) : Z := assemble (read_bits 8 (trace s)) 0 0.

Definition read_state (s : hw) : hw :=
  bus_run (flat_map read_slot (read_bits 8 (trace s))) s.

(** The bytes [n] consecutive reads return after history [h], and the
    history they leave. *)
Fixpoint read_values (n : nat) (h : list event) : list Z :=
  match n with
  | O => []
  | S n' =>
      assemble (read_bits 8 h) 0 0
      :: read_values n' (h ++ flat_map read_slot (read_bits 8 h))
  end.

Fixpoint read_history (n : nat) (h : list event) : list event :=
  match n with
  | O => h
  | S n' => read_history n' (h ++ flat_map read_slot (read_bits 8 h))
  end.

(** The state after [k] consecutive byte reads. *)
Fixpoint reads (k : nat) (s : hw) : hw :=
  match k with
  | O => s
  | S k' => reads k' (read_state s)
  end.

(** The levels sampled in a trace, in order. *)
Definition samples_of (l : list event) : list bool :=
  flat_map (fun e => match e with EvSample b => [b] | _ => [] end) l.

(** A simulated bus that answers the successive samples from a script and
    idles high (the pull-up) once the script is used up. *)
Definition scripted_bus (script : list bool) (h : list event) : bool :=
  nth (length (samples_of h)) script true.

(** Microseconds of busy-waiting in a history. *)
Definition elapsed (h : list event) : Z :=
  fold_left (fun t e => match e with EvDelay us => t + us | _ => t end) h 0.

(** A simulated sensor that holds the line low until [t] microseconds of
    bus time have passed and releases it then. *)
Definition held_low_until (t : Z) (h : list event) : bool := t <=? elapsed h.

(** The state setup() leaves: LED pins outputs, everything low, buffer
    zero-initialised, nothing observed yet. *)
Definition after_setup : hw :=
  mkHw 6 0 0 false SLEEP_MODE_IDLE false (repeat 0 9%nat) [].

(** The poll loop read bit by bit: no sample is taken after the first one
    that reads high. *)
Definition exits_at_first_high_bit
    (bus : list event -> bool) (fuel : nat) (s : hw) : Prop :=
  forall s' : hw,
    poll bus fuel s = Some (tt, s') ->
    forall pre post : list bool,
      samples_of (skipn (length (trace s)) (trace s')) = pre ++ true :: post ->
      post = [].

(** The state after the Skip ROM and Convert T commands. *)
Definition conv_state (s1 : hw) : hw :=
  bus_run (flat_map write_slot (bits_lsb 8 SkipROM) ++
           flat_map write_slot (bits_lsb 8 ConvertT)) s1.

(** The state after the second reset and the Skip ROM and Read Scratchpad
    commands, from the state [s3] in which the poll ended. *)
Definition scratch_state (s3 : hw) : hw :=
  bus_run (reset_events (reset_level s3) ++
           flat_map write_slot (bits_lsb 8 SkipROM) ++
           flat_map write_slot (bits_lsb 8 ReadScratchpad)) s3.

(** The samples a sensor gives over one read cycle when the conversion is
    over by the first poll: presence, eight high bits, presence, and the
    scratchpad least significant bit first. *)
Definition sensor_script (scratchpad : list Z) : list bool :=
  [false] ++ repeat true 8 ++ [false] ++ flat_map (bits_lsb 8) scratchpad.

(** Scratchpads with their CRC byte: the DS18B20 power-on value (85
    degrees), 0 degrees, and -10.125 degrees. *)
Definition power_on_scratchpad : list Z :=
  [0x50; 0x05; 0x4B; 0x46; 0x7F; 0xFF; 0x0C; 0x10; 0x1C].
Definition zero_scratchpad : list Z :=
  [0x00; 0x00; 0x4B; 0x46; 0x7F; 0xFF; 0x0C; 0x10; 0xC8].
Definition minus10_scratchpad : list Z :=
  [0x5E; 0xFF; 0x4B; 0x46; 0x7F; 0xFF; 0x0C; 0x10; 0x6A].

(** The state after setup() with the power-on scratchpad in the buffer. *)
Definition power_on_state : hw := set_DataBytes power_on_scratchpad after_setup.

(** What a bus device makes of the master's events: the width of the low
    pulse in progress, if any, and the widths of the completed ones. *)
Definition scan_step (st : option Z * list Z) (e : event) : option Z * list Z :=
  match e with
  | EvLow => (Some 0, snd st)
  | EvDelay d => (option_map (Z.add d) (fst st), snd st)
  | EvRelease =>
      (None, match fst st with
             | Some w => snd st ++ [w]
             | None => snd st
             end)
  | _ => st
  end.

Definition scan (h : list event) : option Z * list Z :=
  fold_left scan_step h (None, []).

(** No low pulse seen so far and the line released. *)
Definition bus_idle (h : list event) : Prop := scan h = (None, []).

(** The loopback bus takes the first 8 low pulses as a written byte (a
    pulse shorter than 15us is a 1, the point at which a one-wire slave
    samples) and answers the sample of every later slot with the written
    bits in order. *)
Definition loopback (h : list event) : bool :=
  let ws := snd (scan h) in
  let n := length ws in
  if (n <=? 8)%nat then true
  else nth (n - 9) (map (fun w => w <? 15) ws) true.

(** The value of the lowest [n] digits of [x] read in base -2. *)
Fixpoint nb_value (n : nat) (x : Z) : Z :=
  match n with
  | O => 0
  | S n' => Z.b2z (Z.testbit x 0) + -2 * nb_value n' (Z.shiftr x 1)
  end.


(** The state a computation leaves, where it returns. *)
Definition state_after {A : Type} (c : M A) (s : hw) : hw :=
  match c s with
  | Some (_, s') => s'
  | None => s
  end.

(** Events other than a change of the bus pin. *)
Definition quiet (e : event) : Prop :=
  match e with
  | EvLow | EvRelease => False
  | _ => True
  end.

(** Bus activity in which the line is driven low only in whole pulses of
    6, 60 or 480 microseconds, each released at once. *)
Inductive driver_events : list event -> Prop :=
| de_nil : driver_events []
| de_pulse (w : Z) (rest : list event) :
    w = 6 \/ w = 60 \/ w = 480 ->
    driver_events rest ->
    driver_events (EvLow :: EvDelay w :: EvRelease :: rest)
| de_quiet (e : event) (rest : list event) :
    quiet e -> driver_events rest -> driver_events (e :: rest).

(** A computation that, where it returns, has added only such activity and
    has left the direction register as it was or with the bus pin's bit
    cleared. *)
Definition keeps_bus {A : Type} (c : M A) : Prop :=
  forall (s : hw) (r : A) (s' : hw),
    c s = Some (r, s') ->
    (DDRB s' = DDRB s \/ DDRB s' = Z.land (DDRB s) 254) /\
    exists x : list event, trace s' = trace s ++ x /\ driver_events x.






End Vocabulary.

(** * Properties *)

(** ** Checking a finite range *)

Lemma range_forall (n : nat) (P : Z -> bool) :
  forallb P (Z_range n) = true ->
  forall x : Z, 0 <= x < Z.of_nat n -> P x = true.
Proof.
  intros H x Hx. rewrite forallb_forall in H. apply H.
  unfold Z_range. apply in_map_iff. exists (Z.to_nat x). split.
  - apply Z2Nat.id. lia.
  - apply in_seq. lia.
Qed.

(** ** Bits of machine integers *)

Lemma u8_land (x : Z) : u8 x = Z.land x 255.
Proof.
  unfold u8. change 256 with (2 ^ 8). rewrite <- Z.land_ones by lia.
  reflexivity.
Qed.

Lemma u8_range (x : Z) : is_byte (u8 x).
Proof. unfold is_byte, u8. apply Z.mod_pos_bound. lia. Qed.

Lemma u8_id (x : Z) : is_byte x -> u8 x = x.
Proof. unfold is_byte, u8. intros H. apply Z.mod_small. exact H. Qed.

Lemma testbit_u8 (x i : Z) :
  Z.testbit (u8 x) i = (i <? 8) && Z.testbit x i.
Proof. unfold u8. change 256 with (2 ^ 8). apply Z.testbit_mod_pow2. lia. Qed.

Lemma land1_testbit (x : Z) : Z.land x 1 = Z.b2z (Z.testbit x 0).
Proof.
  change 1 with (Z.ones 1) at 1. rewrite Z.land_ones by lia.
  symmetry. apply Z.bit0_mod.
Qed.

Lemma land1_eqb1 (x : Z) : (Z.land x 1 =? 1) = Z.testbit x 0.
Proof. rewrite land1_testbit. destruct (Z.testbit x 0); reflexivity. Qed.

Lemma land1_eqb0 (x : Z) : (Z.land x 1 =? 0) = negb (Z.testbit x 0).
Proof. rewrite land1_testbit. destruct (Z.testbit x 0); reflexivity. Qed.

Lemma shiftr1_byte (x : Z) : is_byte x -> is_byte (Z.shiftr x 1).
Proof.
  unfold is_byte. intros H. rewrite Z.shiftr_div_pow2 by lia.
  change (2 ^ 1) with 2. split.
  - apply Z.div_pos; lia.
  - apply Z.div_lt_upper_bound; lia.
Qed.

Lemma u8_setbit (p pin : Z) :
  is_byte p -> 0 <= pin < 8 ->
  u8 (Z.lor p (Z.shiftl 1 pin)) = Z.setbit p pin.
Proof.
  intros Hp Hpin. fold (Z.setbit p pin). apply Z.bits_inj'. intros n Hn.
  rewrite testbit_u8, !Z.setbit_eqb by lia.
  rewrite <- (u8_id p Hp), testbit_u8.
  destruct (Z.ltb_spec n 8); [reflexivity|].
  replace (pin =? n) with false by (symmetry; apply Z.eqb_neq; lia).
  reflexivity.
Qed.

Lemma u8_clearbit (p pin : Z) :
  is_byte p -> 0 <= pin ->
  u8 (Z.land p (Z.lnot (Z.shiftl 1 pin))) = Z.clearbit p pin.
Proof.
  intros Hp Hpin. rewrite <- Z.ldiff_land. fold (Z.clearbit p pin).
  apply Z.bits_inj'. intros n Hn.
  rewrite testbit_u8, !Z.clearbit_eqb by lia.
  rewrite <- (u8_id p Hp), testbit_u8.
  destruct (n <? 8); reflexivity.
Qed.

Lemma clearbit_byte (p pin : Z) : is_byte p -> 0 <= pin -> is_byte (Z.clearbit p pin).
Proof. intros Hp Hpin. rewrite <- u8_clearbit by assumption. apply u8_range. Qed.

Lemma setbit_byte (p pin : Z) : is_byte p -> 0 <= pin < 8 -> is_byte (Z.setbit p pin).
Proof. intros Hp Hpin. rewrite <- u8_setbit by assumption. apply u8_range. Qed.

Lemma clearbit_setbit (p pin : Z) :
  0 <= pin -> Z.clearbit (Z.setbit p pin) pin = Z.clearbit p pin.
Proof.
  intros Hpin. apply Z.bits_inj'. intros n Hn.
  rewrite !Z.clearbit_eqb, Z.setbit_eqb by lia.
  destruct (pin =? n); [rewrite !andb_false_r|]; reflexivity.
Qed.


(** ** Running the bus primitives *)

Lemma ddrb_release (d : Z) :
  u8 (Z.land (u8 (Z.lor d (Z.shiftl 1 OneWirePin)))
             (Z.lnot (Z.shiftl 1 OneWirePin))) = Z.land d 254.
Proof.
  rewrite !u8_land. change (Z.shiftl 1 OneWirePin) with 1.
  apply Z.bits_inj'. intros n Hn.
  rewrite !Z.land_spec, Z.lor_spec, Z.lnot_spec by lia.
  destruct (Z.eq_dec n 0) as [->|Hn0].
  - cbn. rewrite !andb_false_r. reflexivity.
  - replace (Z.testbit 1 n) with false.
    + rewrite orb_false_r. cbn [negb]. rewrite andb_true_r.
      destruct (Z.ltb_spec n 8) as [Hlt|Hge].
      * assert (E : (n =? 0) || (Z.testbit 255 n && Z.testbit 254 n) = true).
        { apply (range_forall 8
                   (fun n => (n =? 0) || (Z.testbit 255 n && Z.testbit 254 n)));
            [reflexivity | lia]. }
        apply Z.eqb_neq in Hn0. rewrite Hn0 in E. cbn [orb] in E.
        apply andb_true_iff in E. destruct E as [-> ->].
        rewrite !andb_true_r. reflexivity.
      * replace (Z.testbit 255 n) with false.
        2:{ symmetry. change 255 with (Z.ones 8). apply Z.ones_spec_high. lia. }
        replace (Z.testbit 254 n) with false.
        2:{ symmetry. apply Z.bits_above_log2; [lia|]. cbn. lia. }
        rewrite !andb_false_r. reflexivity.
    + symmetry. apply Z.bits_above_log2; [lia|]. cbn. lia.
Qed.

Lemma bus_run_input (evs : list event) (s : hw) :
  Z.testbit (DDRB (bus_run evs s)) OneWirePin = false.
Proof.
  unfold bus_run. cbn [DDRB]. change OneWirePin with 0.
  rewrite Z.land_spec. change (Z.testbit 254 0) with false.
  apply andb_false_r.
Qed.

Lemma bus_run_app (e1 e2 : list event) (s : hw) :
  bus_run e2 (bus_run e1 s) = bus_run (e1 ++ e2) s.
Proof.
  unfold bus_run.
  cbn [DDRB PORTB WDTCSR wd_flag sleep_mode sleep_en DataBytes trace].
  rewrite <- app_assoc. f_equal.
  rewrite <- Z.land_assoc. reflexivity.
Qed.

Lemma LowRelease_run (low high : Z) (s : hw) :
  LowRelease low high s =
  Some (tt, bus_run [EvLow; EvDelay (u16 low); EvRelease; EvDelay (u16 high)] s).
Proof.
  unfold LowRelease, PinLow, PinRelease, DelayMicros, bind, modify, bus_run.
  unfold log, set_DDRB. cbn [DDRB PORTB WDTCSR wd_flag sleep_mode sleep_en
                             DataBytes trace].
  rewrite ddrb_release, <- !app_assoc. reflexivity.
Qed.

Lemma DelayMicros_run (bus_evs : list event) (micro : Z) (s : hw) :
  DelayMicros micro (bus_run bus_evs s) =
  Some (tt, bus_run (bus_evs ++ [EvDelay (u16 micro)]) s).
Proof.
  unfold DelayMicros, modify, log, bus_run.
  cbn [DDRB PORTB WDTCSR wd_flag sleep_mode sleep_en DataBytes trace].
  rewrite <- app_assoc. reflexivity.
Qed.

(** The register side of a pulse pair: PinLow makes the bus pin an output
    (the port bit being 0, this drives the line low), and after the low time
    PinRelease makes it an input again. *)
Lemma LowRelease_phases (low high : Z) (s : hw) :
  exists s_low s_rel : hw,
    PinLow s = Some (tt, s_low) /\
    Z.testbit (DDRB s_low) OneWirePin = true /\
    (DelayMicros low ;; PinRelease) s_low = Some (tt, s_rel) /\
    Z.testbit (DDRB s_rel) OneWirePin = false /\
    DDRB s_rel = Z.land (DDRB s) 254 /\
    LowRelease low high s = DelayMicros high s_rel.
Proof.
  eexists. eexists. split; [reflexivity|]. split.
  - cbn [DDRB log set_DDRB]. rewrite testbit_u8, Z.lor_spec.
    change OneWirePin with 0. cbn. apply orb_true_r.
  - split; [reflexivity|].
    assert (E : DDRB (log EvRelease
                 (set_DDRB
                    (u8 (Z.land
                           (DDRB (log (EvDelay (u16 low))
                                    (log EvLow
                                       (set_DDRB
                                          (u8 (Z.lor (DDRB s)
                                                 (Z.shiftl 1 OneWirePin))) s))))
                           (Z.lnot (Z.shiftl 1 OneWirePin))))
                    (log (EvDelay (u16 low))
                       (log EvLow
                          (set_DDRB
                             (u8 (Z.lor (DDRB s) (Z.shiftl 1 OneWirePin)))
                             s))))) = Z.land (DDRB s) 254).
    { cbn [DDRB log set_DDRB]. apply ddrb_release. }
    split; [|split; [exact E | reflexivity]].
    rewrite E. change OneWirePin with 0. rewrite Z.land_spec.
    change (Z.testbit 254 0) with false. apply andb_false_r.
Qed.

Section BusFacts.

Variable bus : list event -> bool.

Lemma PinRead_run (evs : list event) (s : hw) :
  PinRead bus (bus_run evs s) =
  Some (Z.b2z (bus (trace s ++ evs)),
        bus_run (evs ++ [EvSample (bus (trace s ++ evs))]) s).
Proof.
  unfold PinRead, pin_level. rewrite bus_run_input.
  cbn [trace bus_run]. f_equal. f_equal.
  - change OneWirePin with 0. rewrite Z.shiftr_0_r, land1_testbit, Z.b2z_bit0.
    reflexivity.
  - unfold log, bus_run.
    cbn [DDRB PORTB WDTCSR wd_flag sleep_mode sleep_en DataBytes trace].
    rewrite <- app_assoc. reflexivity.
Qed.

Lemma OneWireReset_run (s : hw) :
  OneWireReset bus s =
  Some (Z.b2z (reset_level bus s), bus_run (reset_events (reset_level bus s)) s).
Proof.
  unfold OneWireReset, bind. rewrite LowRelease_run, PinRead_run.
  rewrite DelayMicros_run. reflexivity.
Qed.

(** C4: OneWireReset drives the line low for 480us, releases it, waits
    70us, samples the line and waits a further 410us; it returns 0 (device
    present) exactly when the sampled level is low and 1 (no presence) when
    it is high.  Driving is the bus pin made an output by PinLow and
    releasing is the pin made an input again by PinRelease; the pin is an
    input when the call returns. *)
Theorem OneWireReset_timing_and_presence (s : hw) :
  exists (level : bool) (r : Z) (s' : hw),
    OneWireReset bus s = Some (r, s') /\
    trace s' =
      trace s ++ [EvLow; EvDelay 480; EvRelease; EvDelay 70;
                  EvSample level; EvDelay 410] /\
    level = bus (trace s ++ [EvLow; EvDelay 480; EvRelease; EvDelay 70]) /\
    (r = 0 <-> level = false) /\
    (level = true -> r = 1) /\
    DDRB s' = Z.land (DDRB s) 254 /\
    Z.testbit (DDRB s') OneWirePin = false /\
    exists s_low s_rel : hw,
      PinLow s = Some (tt, s_low) /\
      Z.testbit (DDRB s_low) OneWirePin = true /\
      (DelayMicros 480 ;; PinRelease) s_low = Some (tt, s_rel) /\
      Z.testbit (DDRB s_rel) OneWirePin = false /\
      OneWireReset bus s =
        (DelayMicros 70 ;; data <- PinRead bus ;; DelayMicros 410 ;; ret data)
          s_rel.
Proof.
  exists (reset_level bus s), (Z.b2z (reset_level bus s)),
         (bus_run (reset_events (reset_level bus s)) s).
  split; [apply OneWireReset_run|].
  split; [reflexivity|]. split; [reflexivity|].
  split; [|split; [|split; [reflexivity|split; [apply bus_run_input|]]]].
  - destruct (reset_level bus s); cbn; split; intros;
      try reflexivity; discriminate.
  - destruct (reset_level bus s); cbn; intros;
      try reflexivity; discriminate.
  - destruct (LowRelease_phases 480 70 s)
      as (s_low & s_rel & H1 & H2 & H3 & H4 & _ & H6).
    exists s_low, s_rel. repeat (split; [assumption|]).
    unfold OneWireReset. unfold bind at 1. rewrite H6.
    unfold bind at 3. reflexivity.
Qed.

End BusFacts.

(** ** Writing a byte *)

Lemma bits_lsb_nth (n : nat) : forall (x : Z) (i : nat),
  (i < n)%nat -> nth i (bits_lsb n x) false = Z.testbit x (Z.of_nat i).
Proof.
  induction n as [|n IH]; intros x i Hi; [lia|].
  destruct i as [|i]; cbn [bits_lsb nth]; [reflexivity|].
  rewrite IH by lia. rewrite Z.shiftr_spec by lia. f_equal. lia.
Qed.

Lemma bits_lsb_8 (x : Z) :
  bits_lsb 8 x = map (Z.testbit x) [0; 1; 2; 3; 4; 5; 6; 7].
Proof.
  cbn [bits_lsb map]. rewrite !Z.shiftr_shiftr by lia.
  rewrite !Z.shiftr_spec by lia. reflexivity.
Qed.

Lemma bits_lsb_length (n : nat) : forall x : Z, length (bits_lsb n x) = n.
Proof.
  induction n as [|n IH]; intros x; cbn [bits_lsb length]; [reflexivity|].
  f_equal. apply IH.
Qed.

Lemma bits_lsb_u8 (n : nat) (x : Z) :
  (n <= 8)%nat -> bits_lsb n (u8 x) = bits_lsb n x.
Proof.
  intros Hn. apply nth_ext with (d := false) (d' := false).
  - rewrite !bits_lsb_length. reflexivity.
  - rewrite bits_lsb_length. intros i Hi.
    rewrite !bits_lsb_nth by assumption. rewrite testbit_u8.
    replace (Z.of_nat i <? 8) with true; [reflexivity|].
    symmetry. apply Z.ltb_lt. lia.
Qed.

Lemma OneWireWrite_loop_S (n : nat) (data : Z) :
  OneWireWrite_loop (S n) data =
  bind (LowRelease (if Z.land data 1 =? 1 then 6 else 60)
                   (70 - (if Z.land data 1 =? 1 then 6 else 60)))
       (fun _ => OneWireWrite_loop n (u8 (Z.shiftr data 1))).
Proof. reflexivity. Qed.

Lemma OneWireWrite_loop_run (n : nat) : forall (data : Z) (s : hw),
  is_byte data ->
  OneWireWrite_loop (S n) data s =
  Some (tt, bus_run (flat_map write_slot (bits_lsb (S n) data)) s).
Proof.
  induction n as [|n IH]; intros data s Hb.
  - cbn [OneWireWrite_loop]. unfold bind. rewrite LowRelease_run.
    cbn [bits_lsb flat_map]. rewrite app_nil_r, land1_eqb1.
    unfold ret. destruct (Z.testbit data 0); reflexivity.
  - rewrite OneWireWrite_loop_S.
    unfold bind at 1. rewrite LowRelease_run.
    rewrite IH by apply u8_range.
    rewrite bus_run_app, u8_id by (apply shiftr1_byte; exact Hb).
    change (bits_lsb (S (S n)) data)
      with (Z.testbit data 0 :: bits_lsb (S n) (Z.shiftr data 1)).
    cbn [flat_map]. rewrite land1_eqb1.
    destruct (Z.testbit data 0); reflexivity.
Qed.

Lemma OneWireWrite_run (data : Z) (s : hw) :
  OneWireWrite data s =
  Some (tt, bus_run (flat_map write_slot (bits_lsb 8 data)) s).
Proof.
  unfold OneWireWrite. rewrite OneWireWrite_loop_run by apply u8_range.
  rewrite bits_lsb_u8 by lia. reflexivity.
Qed.

(** C5: OneWireWrite emits the 8 bits of its byte least significant first,
    one pulse pair per bit: low 6us and released 64us for a 1, low 60us and
    released 10us for a 0.  In every pulse pair the low time is the bus pin
    made an output by PinLow and the released time the pin made an input by
    PinRelease; the pin is an input when the call returns. *)
Theorem OneWireWrite_lsb_first_pulses (data : Z) (s : hw) :
  exists s' : hw,
    OneWireWrite data s = Some (tt, s') /\
    trace s' =
      trace s ++
      flat_map (fun i : Z =>
                  if Z.testbit data i
                  then [EvLow; EvDelay 6; EvRelease; EvDelay 64]
                  else [EvLow; EvDelay 60; EvRelease; EvDelay 10])
               [0; 1; 2; 3; 4; 5; 6; 7] /\
    DDRB s' = Z.land (DDRB s) 254 /\
    Z.testbit (DDRB s') OneWirePin = false /\
    forall (del : Z) (s0 : hw),
    exists s_low s_rel : hw,
      PinLow s0 = Some (tt, s_low) /\
      Z.testbit (DDRB s_low) OneWirePin = true /\
      (DelayMicros del ;; PinRelease) s_low = Some (tt, s_rel) /\
      Z.testbit (DDRB s_rel) OneWirePin = false /\
      LowRelease del (70 - del) s0 = DelayMicros (70 - del) s_rel.
Proof.
  eexists. split; [apply OneWireWrite_run|]. split.
  - cbn [bus_run trace]. f_equal. rewrite bits_lsb_8.
    rewrite flat_map_concat_map, map_map, <- flat_map_concat_map.
    apply flat_map_ext. intros i. unfold write_slot.
    destruct (Z.testbit data i); reflexivity.
  - split; [reflexivity|]. split; [apply bus_run_input|].
    intros del s0.
    destruct (LowRelease_phases del (70 - del) s0)
      as (s_low & s_rel & H1 & H2 & H3 & H4 & _ & H6).
    exists s_low, s_rel. repeat (split; [assumption|]). exact H6.
Qed.

(** ** CRC validator *)

Lemma byte_forall (P : Z -> bool) :
  forallb P all_bytes = true -> forall x : Z, is_byte x -> P x = true.
Proof.
  intros H x Hx. apply (range_forall 256 P H). exact Hx.
Qed.

Lemma crc_rounds_ref (x : Z) :
  is_byte x -> crc_rounds 8 x = Nat.iter 8 crc8_round x.
Proof.
  intros Hx. apply Z.eqb_eq.
  apply (byte_forall (fun x => crc_rounds 8 x =? Nat.iter 8 crc8_round x));
    [vm_compute; reflexivity | exact Hx].
Qed.

Lemma crc8_rounds_zero (x : Z) :
  is_byte x -> (Nat.iter 8 crc8_round x = 0 <-> x = 0).
Proof.
  intros Hx.
  assert (H : Bool.eqb (Nat.iter 8 crc8_round x =? 0) (x =? 0) = true).
  { apply (byte_forall
             (fun x => Bool.eqb (Nat.iter 8 crc8_round x =? 0) (x =? 0)));
      [vm_compute; reflexivity | exact Hx]. }
  apply Bool.eqb_prop in H. rewrite <- !Z.eqb_eq, H. reflexivity.
Qed.

Lemma crc8_rounds_byte (x : Z) : is_byte x -> is_byte (Nat.iter 8 crc8_round x).
Proof.
  intros Hx.
  assert (H : (let y := Nat.iter 8 crc8_round x in (0 <=? y) && (y <? 256))
              = true).
  { apply (byte_forall
             (fun x => let y := Nat.iter 8 crc8_round x in
                       (0 <=? y) && (y <? 256)));
      [vm_compute; reflexivity | exact Hx]. }
  cbv zeta in H. apply andb_true_iff in H. destruct H as [H1 H2].
  apply Z.leb_le in H1. apply Z.ltb_lt in H2. split; assumption.
Qed.

Lemma u8_lxor (a b : Z) : u8 (Z.lxor a b) = Z.lxor (u8 a) (u8 b).
Proof.
  apply Z.bits_inj'. intros n _.
  rewrite Z.lxor_spec, !testbit_u8, Z.lxor_spec.
  destruct (n <? 8); reflexivity.
Qed.

Lemma lxor_byte (a b : Z) : is_byte a -> is_byte b -> is_byte (Z.lxor a b).
Proof.
  intros Ha Hb. rewrite <- (u8_id a Ha), <- (u8_id b Hb), <- u8_lxor.
  apply u8_range.
Qed.

Lemma crc8_byte_byte (a b : Z) : is_byte a -> is_byte b -> is_byte (crc8_byte a b).
Proof. intros Ha Hb. apply crc8_rounds_byte, lxor_byte; assumption. Qed.

Lemma crc8_fold_byte (l : list Z) : forall a : Z,
  is_byte a -> Forall is_byte l -> is_byte (fold_left crc8_byte l a).
Proof.
  induction l as [|b l IH]; intros a Ha Hl; [exact Ha|].
  inversion Hl; subst. cbn [fold_left]. apply IH; [|assumption].
  apply crc8_byte_byte; assumption.
Qed.

Lemma load_DataBytes_app (pre l : list Z) (b : Z) (s : hw) :
  DataBytes s = pre ++ b :: l ->
  load_DataBytes (Z.of_nat (length pre)) s = Some (b, s).
Proof.
  intros E. unfold load_DataBytes.
  replace (Z.of_nat (length pre) <? 0) with false by (symmetry; apply Z.ltb_ge; lia).
  rewrite Nat2Z.id, E, nth_error_app2 by lia.
  rewrite PeanoNat.Nat.sub_diag. reflexivity.
Qed.

Lemma OneWireCRC_loop_run (n : nat) : forall (pre l : list Z) (crc : Z) (s : hw),
  DataBytes s = pre ++ l ->
  (n <= length l)%nat ->
  Forall is_byte l ->
  is_byte crc ->
  OneWireCRC_loop n (Z.of_nat (length pre)) crc s =
  Some (fold_left crc8_byte (firstn n l) crc, s).
Proof.
  induction n as [|n IH]; intros pre l crc s E Hn Hl Hc; [reflexivity|].
  destruct l as [|b l]; [cbn in Hn; lia|].
  inversion Hl as [|? ? Hb Hl']; subst.
  cbn [OneWireCRC_loop firstn fold_left]. unfold bind.
  rewrite (load_DataBytes_app pre l b s E).
  replace (Z.of_nat (length pre) + 1) with (Z.of_nat (length (pre ++ [b])))
    by (rewrite length_app; cbn [length]; lia).
  rewrite u8_id by (apply lxor_byte; assumption).
  rewrite crc_rounds_ref by (apply lxor_byte; assumption).
  apply IH.
  - rewrite <- app_assoc. exact E.
  - cbn [length] in Hn. lia.
  - exact Hl'.
  - apply crc8_byte_byte; assumption.
Qed.

Lemma OneWireCRC_run (bytes : Z) (s : hw) :
  Forall is_byte (DataBytes s) ->
  bytes <= Z.of_nat (length (DataBytes s)) ->
  OneWireCRC bytes s =
  Some (crc8_ref (firstn (Z.to_nat bytes) (DataBytes s)), s).
Proof.
  intros Hb Hn. unfold OneWireCRC, crc8_ref.
  apply (OneWireCRC_loop_run (Z.to_nat bytes) [] (DataBytes s) 0 s).
  - reflexivity.
  - lia.
  - exact Hb.
  - unfold is_byte. lia.
Qed.

Lemma OneWireCRC_9 (s : hw) :
  length (DataBytes s) = 9%nat ->
  Forall is_byte (DataBytes s) ->
  OneWireCRC 9 s = Some (crc8_ref (DataBytes s), s).
Proof.
  intros Hlen Hb. rewrite OneWireCRC_run by (rewrite ?Hlen; auto; lia).
  rewrite firstn_all2 by (rewrite Hlen; apply PeanoNat.Nat.le_refl).
  reflexivity.
Qed.

Lemma crc8_ref_snoc (d : list Z) (c : Z) :
  crc8_ref (d ++ [c]) = crc8_byte (crc8_ref d) c.
Proof. unfold crc8_ref. rewrite fold_left_app. reflexivity. Qed.

(** C3: over a buffer of bytes OneWireCRC(n) is the reference CRC-8 of the
    first n bytes, and a buffer with its trailing CRC byte gives 0 exactly
    when that byte is the CRC of the bytes before it. *)
Theorem OneWireCRC_refines_reference (bytes : Z) (s : hw) :
  Forall is_byte (DataBytes s) ->
  bytes <= Z.of_nat (length (DataBytes s)) ->
  OneWireCRC bytes s =
    Some (crc8_ref (firstn (Z.to_nat bytes) (DataBytes s)), s) /\
  (forall (d : list Z) (c : Z),
     Forall is_byte d -> is_byte c ->
     (crc8_ref (d ++ [c]) = 0 <-> c = crc8_ref d)).
Proof.
  intros Hb Hn. split; [apply OneWireCRC_run; assumption|].
  intros d c Hd Hc. rewrite crc8_ref_snoc. unfold crc8_byte.
  assert (Ha : is_byte (crc8_ref d)).
  { apply crc8_fold_byte; [unfold is_byte; lia | exact Hd]. }
  rewrite crc8_rounds_zero by (apply lxor_byte; assumption).
  rewrite Z.lxor_eq_0_iff. split; intros; subst; reflexivity.
Qed.

(** ** Single-bit errors *)

Lemma flip_bit_length (l : list Z) : forall (i : nat) (k : Z),
  length (flip_bit l i k) = length l.
Proof.
  induction l as [|b l IH]; intros [|i] k; cbn [flip_bit length];
    try reflexivity.
  f_equal. apply IH.
Qed.

Lemma pow2_byte (k : Z) : 0 <= k < 8 -> is_byte (2 ^ k).
Proof.
  intros Hk. unfold is_byte. split; [apply Z.pow_nonneg; lia|].
  change 256 with (2 ^ 8). apply Z.pow_lt_mono_r; lia.
Qed.

Lemma flip_bit_bytes (l : list Z) : forall (i : nat) (k : Z),
  0 <= k < 8 -> Forall is_byte l -> Forall is_byte (flip_bit l i k).
Proof.
  induction l as [|b l IH]; intros [|i] k Hk Hl; cbn [flip_bit];
    try exact Hl; inversion Hl; subst; constructor; auto.
  apply lxor_byte; [assumption | apply pow2_byte; exact Hk].
Qed.

(** The CRC is linear over GF(2). *)
Lemma crc8_round_bits (x : Z) :
  crc8_round x = Z.lxor (Z.shiftr x 1) (if Z.testbit x 0 then 0x8C else 0).
Proof.
  unfold crc8_round. cbv zeta. rewrite <- Z.bit0_eqb.
  rewrite Z.shiftr_div_pow2 by lia. change (2 ^ 1) with 2.
  destruct (Z.testbit x 0); [reflexivity|]. rewrite Z.lxor_0_r. reflexivity.
Qed.

Ltac xor_bits :=
  apply Z.bits_inj'; intros ? _; rewrite ?Z.lxor_spec, ?Z.bits_0;
  repeat match goal with
         | |- context [Z.testbit ?a ?b] => destruct (Z.testbit a b)
         end; reflexivity.

Lemma crc8_round_linear (x y : Z) :
  crc8_round (Z.lxor x y) = Z.lxor (crc8_round x) (crc8_round y).
Proof.
  rewrite !crc8_round_bits, Z.shiftr_lxor, Z.lxor_spec.
  destruct (Z.testbit x 0), (Z.testbit y 0); cbn [xorb]; xor_bits.
Qed.

Lemma crc8_rounds_linear (n : nat) (x y : Z) :
  Nat.iter n crc8_round (Z.lxor x y) =
  Z.lxor (Nat.iter n crc8_round x) (Nat.iter n crc8_round y).
Proof.
  induction n as [|n IH]; [reflexivity|].
  cbn [Nat.iter nat_rect]. change (nat_rect _ ?a ?f n) with (Nat.iter n crc8_round a).
  rewrite IH. apply crc8_round_linear.
Qed.

Lemma crc8_byte_linear (a a' b b' : Z) :
  crc8_byte (Z.lxor a a') (Z.lxor b b') =
  Z.lxor (crc8_byte a b) (crc8_byte a' b').
Proof.
  unfold crc8_byte. rewrite <- crc8_rounds_linear. f_equal. xor_bits.
Qed.

Lemma crc8_fold_acc_linear (l : list Z) : forall x y : Z,
  fold_left crc8_byte l (Z.lxor x y) =
  Z.lxor (fold_left crc8_byte l x)
         (fold_left crc8_byte (repeat 0 (length l)) y).
Proof.
  induction l as [|b l IH]; intros x y; [reflexivity|].
  cbn [fold_left length repeat].
  rewrite <- IH. f_equal.
  rewrite <- crc8_byte_linear, Z.lxor_0_r. reflexivity.
Qed.

Lemma crc8_fold_flip (l : list Z) : forall (a : Z) (i : nat) (k : Z),
  (i < length l)%nat ->
  fold_left crc8_byte (flip_bit l i k) a =
  Z.lxor (fold_left crc8_byte l a)
         (fold_left crc8_byte (flip_bit (repeat 0 (length l)) i k) 0).
Proof.
  induction l as [|b l IH]; intros a i k Hi; [cbn in Hi; lia|].
  destruct i as [|i]; cbn [flip_bit length repeat fold_left].
  - rewrite <- crc8_fold_acc_linear. f_equal.
    rewrite <- crc8_byte_linear, Z.lxor_0_r. reflexivity.
  - change (crc8_byte 0 0) with 0. apply IH. cbn [length] in Hi. lia.
Qed.

Lemma crc8_unit_nonzero (i : nat) (k : Z) :
  (i < 9)%nat -> 0 <= k < 8 ->
  crc8_ref (flip_bit (repeat 0 9%nat) i k) <> 0.
Proof.
  intros Hi Hk.
  assert (H : forallb (fun i => forallb
                (fun k => negb (crc8_ref (flip_bit (repeat 0 9%nat) i k) =? 0))
                (Z_range 8)) (seq 0 9) = true)
    by (vm_compute; reflexivity).
  rewrite forallb_forall in H.
  assert (Hin : In i (seq 0 9)) by (apply in_seq; lia).
  specialize (H i Hin). rewrite forallb_forall in H.
  specialize (H k). rewrite negb_true_iff, Z.eqb_neq in H. apply H.
  unfold Z_range. apply in_map_iff. exists (Z.to_nat k).
  split; [lia|]. apply in_seq. lia.
Qed.

(** C8: if the CRC over a 9-byte buffer is 0, then after inverting any
    single bit of the buffer the CRC over the 9 bytes is not 0. *)
Theorem OneWireCRC_detects_single_bit_flip (s : hw) (i : nat) (k : Z) :
  length (DataBytes s) = 9%nat ->
  Forall is_byte (DataBytes s) ->
  OneWireCRC 9 s = Some (0, s) ->
  (i < 9)%nat -> 0 <= k < 8 ->
  exists c : Z,
    OneWireCRC 9 (set_DataBytes (flip_bit (DataBytes s) i k) s) =
      Some (c, set_DataBytes (flip_bit (DataBytes s) i k) s) /\
    c <> 0.
Proof.
  intros Hlen Hb Hcrc Hi Hk.
  rewrite OneWireCRC_9 in Hcrc by assumption.
  injection Hcrc as Hcrc.
  eexists. split.
  - apply OneWireCRC_9; cbn [DataBytes set_DataBytes].
    + rewrite flip_bit_length. exact Hlen.
    + apply flip_bit_bytes; assumption.
  - cbn [DataBytes set_DataBytes].
    unfold crc8_ref in *. rewrite crc8_fold_flip by lia.
    rewrite Hcrc, Hlen, Z.lxor_0_l. apply crc8_unit_nonzero; assumption.
Qed.

(** ** Watchdog sleeps *)

Lemma wd_reg_armed (n : Z) : Z.testbit (wd_reg n) WDIE = true.
Proof.
  unfold wd_reg. rewrite testbit_u8, !Z.lor_spec.
  change (Z.testbit (Z.shiftl 1 WDIE) WDIE) with true. reflexivity.
Qed.

Lemma wdp_of_wd_reg (n : Z) : 0 <= n < 16 -> wdp_of (wd_reg n) = n.
Proof.
  intros Hn. apply Z.eqb_eq.
  apply (range_forall 16 (fun n => wdp_of (wd_reg n) =? n));
    [reflexivity | exact Hn].
Qed.

Lemma WDDelay_run (n : Z) (s : hw) :
  WDDelay n s = Some (tt, slept (sleep_events n (wd_flag s)) s).
Proof.
  unfold WDDelay, bind, set_sleep_mode, write_WDTCSR, sleep_enable, modify.
  unfold sleep_cpu.
  unfold set_sleep_en, set_WDTCSR, set_sleep_mode_field.
  cbn [DDRB PORTB WDTCSR wd_flag sleep_mode sleep_en DataBytes trace negb].
  fold (wd_reg n). rewrite wd_reg_armed.
  unfold ISR_WDT, write_WDTCSR, modify, sleep_events, slept.
  destruct (wd_flag s); unfold set_wd_flag, log, set_WDTCSR;
    cbn [DDRB PORTB WDTCSR wd_flag sleep_mode sleep_en DataBytes trace];
    rewrite <- ?app_assoc; reflexivity.
Qed.

(** ** Flashing a value *)

Lemma Pulse_total (pin : Z) (s : hw) : exists s' : hw, Pulse pin s = Some (tt, s').
Proof.
  unfold Pulse, bind, gets, write_PORTB, modify.
  rewrite WDDelay_run. rewrite WDDelay_run. eexists. reflexivity.
Qed.




Lemma pulse_seq_total (pins : list Z) : forall s : hw,
  exists s' : hw, pulse_seq pins s = Some (tt, s').
Proof.
  induction pins as [|p t IH]; intros s; cbn [pulse_seq].
  - eexists. reflexivity.
  - unfold bind. destruct (Pulse_total p s) as [s1 ->]. apply IH.
Qed.



Lemma Flash_loop_scan (n : nat) : forall (v zeros : Z) (s : hw),
  Flash_loop n v zeros s =
  pulse_seq (map led_of_bit (flash_scan (msb_bits n v) (negb (zeros =? 0)))) s.
Proof.
  induction n as [|n IH]; intros v zeros s; [reflexivity|].
  cbn [Flash_loop msb_bits flash_scan]. cbv zeta.
  rewrite land1_eqb0, Z.shiftr_spec, Z.add_0_l, negb_involutive by lia.
  replace (Z.of_nat n =? 0)
    with (match msb_bits n v with [] => true | _ :: _ => false end).
  2:{ destruct n; [reflexivity|]. cbn [msb_bits]. symmetry.
      apply Z.eqb_neq. lia. }
  destruct (negb (zeros =? 0) || Z.testbit v (Z.of_nat n) ||
            match msb_bits n v with [] => true | _ :: _ => false end).
  - cbn [map pulse_seq]. unfold bind.
    replace (if Z.testbit v (Z.of_nat n) then Pulse RedPin else Pulse GreenPin)
      with (Pulse (led_of_bit (Z.testbit v (Z.of_nat n))))
      by (destruct (Z.testbit v (Z.of_nat n)); reflexivity).
    destruct (Pulse _ s) as [[[] s1]|]; [|reflexivity].
    apply IH.
  - apply IH.
Qed.

Lemma flash_scan_bits (v : Z) :
  is_byte v -> flash_scan (msb_bits 8 v) false = flash_bits v.
Proof.
  intros Hv.
  assert (H : bits_eqb (flash_scan (msb_bits 8 v) false) (flash_bits v) = true).
  { apply (byte_forall
             (fun v => bits_eqb (flash_scan (msb_bits 8 v) false) (flash_bits v)));
      [vm_compute; reflexivity | exact Hv]. }
  unfold bits_eqb in H.
  destruct (list_eq_dec Bool.bool_dec _ _) as [E|]; [exact E | discriminate].
Qed.


Lemma count_wakes_app (l1 l2 : list event) :
  count_wakes (l1 ++ l2) = (count_wakes l1 + count_wakes l2)%nat.
Proof. unfold count_wakes. rewrite filter_app, length_app. reflexivity. Qed.

Lemma count_wakes_sleep (n : Z) (pending : bool) :
  count_wakes (sleep_events n pending) = 1%nat.
Proof. destruct pending; reflexivity. Qed.

(** C7: a sleep call is one-shot.  The handler does nothing but clear the
    register that holds the interrupt enable flag; WDDelay arms the flag and
    sleeps, and returns after exactly one wake event with the flag clear and
    no interrupt pending, so nothing carries over into the next call.  Two
    sleeps with code 9, as at the start of loop, give exactly two wake
    events and the second sleeps its full period whatever came before. *)
Theorem WDDelay_one_shot (n : Z) (s : hw) :
  ISR_WDT s = Some (tt, set_WDTCSR 0 s) /\
  (let armed :=
     set_sleep_en true
       (set_WDTCSR (wd_reg n) (set_sleep_mode_field SLEEP_MODE_PWR_DOWN s)) in
   WDDelay n s = sleep_cpu armed /\ Z.testbit (WDTCSR armed) WDIE = true) /\
  (exists s1 : hw,
     WDDelay n s = Some (tt, s1) /\
     trace s1 = trace s ++ sleep_events n (wd_flag s) /\
     count_wakes (trace s1) = S (count_wakes (trace s)) /\
     Z.testbit (WDTCSR s1) WDIE = false /\
     wd_flag s1 = false) /\
  (exists s1 s2 : hw,
     WDDelay 9 s = Some (tt, s1) /\
     WDDelay 9 s1 = Some (tt, s2) /\
     trace s2 = trace s1 ++ [EvSleep 9; EvWake] /\
     count_wakes (trace s2) = (count_wakes (trace s) + 2)%nat /\
     Z.testbit (WDTCSR s2) WDIE = false /\
     wd_flag s2 = false /\
     wd_period_ms 9 + wd_period_ms 9 = 16384 /\
     forall (bus : list event -> bool) (fuel : nat),
       loop bus fuel s =
       (temp <- Temperature bus fuel ;;
        temp <- (if temp <? 0 then Pulse GreenPin ;; ret (to_int16 (- temp))
                 else ret temp) ;;
        Flash (Z.shiftr temp 4)) s2).
Proof.
  split; [reflexivity|]. split.
  - cbv zeta. split; [reflexivity|].
    cbn [WDTCSR set_sleep_en set_WDTCSR]. apply wd_reg_armed.
  - split.
    + eexists. split; [apply WDDelay_run|].
      cbn [slept trace WDTCSR wd_flag]. split; [reflexivity|].
      split; [|split; reflexivity].
      rewrite count_wakes_app, count_wakes_sleep. lia.
    + eexists. eexists. split; [apply WDDelay_run|].
      split; [apply WDDelay_run|].
      cbn [slept trace WDTCSR wd_flag]. split; [reflexivity|].
      split; [|split; [reflexivity|split; [reflexivity|split; [reflexivity|]]]].
      * rewrite !count_wakes_app, count_wakes_sleep. cbn. lia.
      * intros bus fuel. unfold loop. unfold bind at 1.
        rewrite WDDelay_run. unfold bind at 1. rewrite WDDelay_run.
        reflexivity.
Qed.

(** ** Reading a byte *)

Section ReadFacts.

Variable bus : list event -> bool.

Lemma OneWireRead_loop_step (n : nat) (i data : Z) (s : hw) :
  OneWireRead_loop bus (S n) i data s =
  OneWireRead_loop bus n (i + 1)
    (u8 (Z.lor data (Z.shiftl (Z.b2z (bus (trace s ++ read_pre))) i)))
    (bus_run (read_slot (bus (trace s ++ read_pre))) s).
Proof.
  cbn [OneWireRead_loop]. unfold bind.
  rewrite LowRelease_run, PinRead_run, DelayMicros_run. reflexivity.
Qed.

Lemma OneWireRead_loop_run (n : nat) : forall (i data : Z) (s : hw),
  OneWireRead_loop bus (S n) i data s =
  Some (assemble (read_bits bus (S n) (trace s)) i data,
        bus_run (flat_map read_slot (read_bits bus (S n) (trace s))) s).
Proof.
  induction n as [|n IH]; intros i data s; rewrite OneWireRead_loop_step.
  - cbn [OneWireRead_loop read_bits assemble flat_map]. unfold ret.
    rewrite app_nil_r. reflexivity.
  - rewrite IH, bus_run_app. reflexivity.
Qed.

Lemma OneWireRead_run (s : hw) :
  OneWireRead bus s = Some (read_value bus s, read_state bus s).
Proof. exact (OneWireRead_loop_run 7 0 0 s). Qed.

End ReadFacts.

(** ** Reading the scratchpad *)

Lemma assemble_byte (bits : list bool) : forall i data : Z,
  is_byte data -> is_byte (assemble bits i data).
Proof.
  induction bits as [|b t IH]; intros i data Hd; [exact Hd|].
  cbn [assemble]. apply IH, u8_range.
Qed.

Lemma assemble_bits_lsb (x : Z) : is_byte x -> assemble (bits_lsb 8 x) 0 0 = x.
Proof.
  intros Hx. apply Z.eqb_eq.
  apply (byte_forall (fun x => assemble (bits_lsb 8 x) 0 0 =? x));
    [vm_compute; reflexivity | exact Hx].
Qed.

Lemma assemble_all_high (bits : list bool) :
  length bits = 8%nat -> (assemble bits 0 0 = 0xFF <-> bits = repeat true 8).
Proof.
  intros Hlen.
  do 8 (destruct bits as [|? bits]; [discriminate Hlen|]).
  destruct bits; [|discriminate Hlen]. clear Hlen.
  repeat match goal with b : bool |- _ => destruct b end;
    vm_compute; split; intros H; solve [reflexivity | discriminate H].
Qed.

Section ScratchpadFacts.

Variable bus : list event -> bool.

Lemma read_bits_length (n : nat) : forall h : list event,
  length (read_bits bus n h) = n.
Proof.
  induction n as [|n IH]; intros h; cbn [read_bits length]; [reflexivity|].
  f_equal. apply IH.
Qed.

Lemma read_value_byte (s : hw) : is_byte (read_value bus s).
Proof. apply assemble_byte. unfold is_byte. lia. Qed.

Lemma read_value_FF (s : hw) :
  read_value bus s = 0xFF <-> read_bits bus 8 (trace s) = repeat true 8.
Proof. apply assemble_all_high, read_bits_length. Qed.

Lemma read_values_length (n : nat) : forall h, length (read_values bus n h) = n.
Proof.
  induction n as [|n IH]; intros h; cbn [read_values length]; [reflexivity|].
  f_equal. apply IH.
Qed.

Lemma read_values_bytes (n : nat) : forall h, Forall is_byte (read_values bus n h).
Proof.
  induction n as [|n IH]; intros h; cbn [read_values]; constructor.
  - apply assemble_byte. unfold is_byte. lia.
  - apply IH.
Qed.

Lemma list_set_app (pre l : list Z) (b v : Z) :
  list_set (pre ++ b :: l) (length pre) v = Some (pre ++ v :: l).
Proof.
  induction pre as [|a pre IH]; cbn [app length list_set]; [reflexivity|].
  rewrite IH. reflexivity.
Qed.

Lemma store_DataBytes_app (pre l : list Z) (b v : Z) (s : hw) :
  DataBytes s = pre ++ b :: l ->
  store_DataBytes (Z.of_nat (length pre)) v s =
  Some (tt, set_DataBytes (pre ++ v :: l) s).
Proof.
  intros E. unfold store_DataBytes.
  replace (Z.of_nat (length pre) <? 0) with false
    by (symmetry; apply Z.ltb_ge; lia).
  rewrite Nat2Z.id, E, list_set_app. reflexivity.
Qed.

Lemma OneWireReadBytes_loop_run (n : nat) : forall (pre l : list Z) (s : hw),
  DataBytes s = pre ++ l ->
  (n <= length l)%nat ->
  exists s' : hw,
    OneWireReadBytes_loop bus n (Z.of_nat (length pre)) s = Some (tt, s') /\
    DataBytes s' = pre ++ read_values bus n (trace s) ++ skipn n l /\
    trace s' = read_history bus n (trace s).
Proof.
  induction n as [|n IH]; intros pre l s E Hn.
  - exists s. cbn [OneWireReadBytes_loop read_values read_history skipn app].
    auto.
  - destruct l as [|b l]; [cbn in Hn; lia|].
    cbn [OneWireReadBytes_loop]. unfold bind at 1.
    rewrite OneWireRead_run. unfold bind at 1.
    rewrite (store_DataBytes_app pre l b) by exact E.
    replace (Z.of_nat (length pre) + 1)
      with (Z.of_nat (length (pre ++ [read_value bus s])))
      by (rewrite length_app; cbn [length]; lia).
    destruct (IH (pre ++ [read_value bus s]) l
                 (set_DataBytes (pre ++ read_value bus s :: l)
                                (read_state bus s)))
      as (s' & Hrun & Hdata & Htr).
    + cbn [DataBytes set_DataBytes]. rewrite <- app_assoc. reflexivity.
    + cbn [length] in Hn. lia.
    + exists s'. split; [exact Hrun|]. split.
      * rewrite Hdata, <- app_assoc. reflexivity.
      * rewrite Htr. reflexivity.
Qed.

Lemma OneWireReadBytes_9 (s : hw) :
  length (DataBytes s) = 9%nat ->
  exists s' : hw,
    OneWireReadBytes bus 9 s = Some (tt, s') /\
    DataBytes s' = read_values bus 9 (trace s) /\
    trace s' = read_history bus 9 (trace s).
Proof.
  intros Hlen. unfold OneWireReadBytes.
  destruct (OneWireReadBytes_loop_run (Z.to_nat 9) [] (DataBytes s) s)
    as (s' & Hrun & Hdata & Htr).
  - reflexivity.
  - rewrite Hlen. apply PeanoNat.Nat.le_refl.
  - exists s'. split; [exact Hrun|]. split; [|exact Htr].
    rewrite Hdata. cbn [app].
    rewrite skipn_all2 by (rewrite Hlen; apply PeanoNat.Nat.le_refl).
    apply app_nil_r.
Qed.

End ScratchpadFacts.

(** ** The conversion poll *)

Section PollFacts.

Variable bus : list event -> bool.

Lemma poll_step (fuel : nat) (s : hw) :
  poll bus (S fuel) s =
  if read_value bus s =? 0xFF then Some (tt, read_state bus s)
  else poll bus fuel (read_state bus s).
Proof.
  cbn [poll]. unfold bind. rewrite OneWireRead_run.
  destruct (read_value bus s =? 0xFF); reflexivity.
Qed.

Lemma poll_exit (fuel : nat) : forall (n : nat) (s : hw),
  (n < fuel)%nat ->
  (forall k, (k < n)%nat -> read_value bus (reads bus k s) <> 0xFF) ->
  read_value bus (reads bus n s) = 0xFF ->
  poll bus fuel s = Some (tt, reads bus (S n) s).
Proof.
  induction fuel as [|fuel IH]; intros n s Hn Hbusy Hdone; [lia|].
  rewrite poll_step. destruct n as [|n].
  - cbn [reads] in Hdone |- *. rewrite Hdone. reflexivity.
  - assert (H0 : read_value bus s <> 0xFF) by (apply (Hbusy 0%nat); lia).
    apply Z.eqb_neq in H0. rewrite H0.
    apply (IH n (read_state bus s)); [lia| |exact Hdone].
    intros k Hk. apply (Hbusy (S k)). lia.
Qed.

Lemma poll_inv (fuel : nat) : forall s s' : hw,
  poll bus fuel s = Some (tt, s') ->
  exists n : nat,
    (n < fuel)%nat /\ s' = reads bus (S n) s /\
    read_value bus (reads bus n s) = 0xFF /\
    forall k, (k < n)%nat -> read_value bus (reads bus k s) <> 0xFF.
Proof.
  induction fuel as [|fuel IH]; intros s s' H; [discriminate H|].
  rewrite poll_step in H.
  destruct (read_value bus s =? 0xFF) eqn:E.
  - exists 0%nat. injection H as <-. apply Z.eqb_eq in E.
    repeat split; [lia | exact E | intros k Hk; lia].
  - apply IH in H. destruct H as (n & Hn & -> & Hdone & Hbusy).
    exists (S n). repeat split; [lia | exact Hdone |].
    intros [|k] Hk; [cbn [reads]; apply Z.eqb_neq; exact E|].
    apply Hbusy. lia.
Qed.

Lemma reads_DataBytes (k : nat) : forall s : hw,
  DataBytes (reads bus k s) = DataBytes s.
Proof. induction k as [|k IH]; intros s; [reflexivity|]. exact (IH _). Qed.

Lemma not_all_high (l : list bool) :
  l <> repeat true (length l) <-> In false l.
Proof.
  induction l as [|b l IH]; cbn [length repeat In].
  - split; [intros H; contradiction H; reflexivity | intros []].
  - destruct b.
    + rewrite <- IH. split.
      * intros H. right. intros E. apply H. f_equal. exact E.
      * intros [H|H] E; [discriminate H|]. apply H. injection E as E. exact E.
    + split; [auto | intros _ E; discriminate E].
Qed.

Lemma read_value_not_FF (s : hw) :
  read_value bus s <> 0xFF <-> In false (read_bits bus 8 (trace s)).
Proof.
  rewrite read_value_FF, <- not_all_high, read_bits_length. reflexivity.
Qed.

End PollFacts.

(** On a bus that reads low once and high from then on, the poll loop reads
    fourteen more bits after the first high one. *)
Lemma poll_reads_on_after_high_bit :
  ~ exits_at_first_high_bit (scripted_bus [false]) 2 after_setup.
Proof.
  intros H.
  specialize (H (reads (scripted_bus [false]) 2 after_setup)).
  assert (E : poll (scripted_bus [false]) 2 after_setup =
              Some (tt, reads (scripted_bus [false]) 2 after_setup))
    by (vm_compute; reflexivity).
  specialize (H E [false] (repeat true 14)).
  assert (E' : samples_of
                 (skipn (length (trace after_setup))
                    (trace (reads (scripted_bus [false]) 2 after_setup))) =
               [false] ++ true :: repeat true 14)
    by (vm_compute; reflexivity).
  specialize (H E'). discriminate H.
Qed.

(** C2 (amended): the poll loop reads whole bytes.  It returns exactly after
    the first byte read all of whose 8 samples are high; every byte read
    before it has at least one low sample. *)
Theorem poll_exits_on_first_all_high_byte
    (bus : list event -> bool) (fuel : nat) (s s' : hw) :
  poll bus fuel s = Some (tt, s') <->
  exists n : nat,
    (n < fuel)%nat /\ s' = reads bus (S n) s /\
    read_bits bus 8 (trace (reads bus n s)) = repeat true 8 /\
    forall k, (k < n)%nat -> In false (read_bits bus 8 (trace (reads bus k s))).
Proof.
  split.
  - intros H. apply poll_inv in H. destruct H as (n & Hn & -> & Hdone & Hbusy).
    exists n. repeat split; [exact Hn | apply read_value_FF; exact Hdone |].
    intros k Hk. apply read_value_not_FF, Hbusy, Hk.
  - intros (n & Hn & -> & Hdone & Hbusy). apply poll_exit; [exact Hn | |].
    + intros k Hk. apply read_value_not_FF, Hbusy, Hk.
    + apply read_value_FF. exact Hdone.
Qed.

(** A sensor that holds the line low for 20 bit slots and then releases:
    the third byte read still has four low samples, and the loop returns
    after the fourth, 32 samples in all. *)
Example poll_after_conversion :
  let bus := scripted_bus (repeat false 20) in
  poll bus 10 after_setup = Some (tt, reads bus 4 after_setup) /\
  samples_of (trace (reads bus 4 after_setup)) =
    repeat false 20 ++ repeat true 12.
Proof. vm_compute. split; reflexivity. Qed.

(** A sensor that releases the line 2000us after the poll began.  A byte
    read lasts 560us; the fourth one straddles the release and reads 0xE0,
    so the loop returns at the end of the fifth, 2800us after it began. *)
Example poll_returns_after_release :
  let bus := held_low_until 2000 in
  poll bus 10 after_setup = Some (tt, reads bus 5 after_setup) /\
  read_value bus (reads bus 3 after_setup) = 0xE0 /\
  elapsed (trace (reads bus 5 after_setup)) = 2800.
Proof. vm_compute. repeat split; reflexivity. Qed.

(** ** The read cycle *)

Lemma DisplayError_total (pin : Z) (s : hw) :
  exists s' : hw, DisplayError pin s = Some (tt, s').
Proof.
  unfold DisplayError, bind, gets, write_PORTB, modify.
  rewrite WDDelay_run. rewrite WDDelay_run. eexists. reflexivity.
Qed.

Lemma load_DataWords_0 (s : hw) :
  length (DataBytes s) = 9%nat ->
  load_DataWords 0 s =
  Some (nth 0 (DataBytes s) 0 + 256 * nth 1 (DataBytes s) 0, s).
Proof.
  intros Hlen.
  destruct (DataBytes s) as [|b0 [|b1 l]] eqn:E; try discriminate Hlen.
  unfold load_DataWords, bind, load_DataBytes.
  change (2 * 0 <? 0) with false. change (2 * 0 + 1 <? 0) with false.
  change (Z.to_nat (2 * 0)) with 0%nat. change (Z.to_nat (2 * 0 + 1)) with 1%nat.
  cbv iota. rewrite E. cbn [nth_error]. rewrite E. reflexivity.
Qed.

Section TemperatureFacts.

Variable bus : list event -> bool.

Lemma poll_DataBytes (fuel : nat) (s s' : hw) :
  poll bus fuel s = Some (tt, s') -> DataBytes s' = DataBytes s.
Proof.
  intros H. apply poll_inv in H. destruct H as (n & _ & -> & _).
  apply reads_DataBytes.
Qed.

Lemma acquire_poll (fuel : nat) (s1 : hw) :
  acquire bus fuel s1 =
  match poll bus fuel (conv_state s1) with
  | Some (_, s3) => OneWireReadBytes bus 9 (scratch_state bus s3)
  | None => None
  end.
Proof.
  unfold acquire. unfold bind at 1. rewrite OneWireWrite_run.
  unfold bind at 1. rewrite OneWireWrite_run, bus_run_app.
  fold (conv_state s1). unfold bind at 1.
  destruct (poll bus fuel (conv_state s1)) as [[[] s3]|]; [|reflexivity].
  unfold bind at 1. rewrite OneWireReset_run.
  unfold bind at 1. rewrite OneWireWrite_run.
  unfold bind at 1. rewrite OneWireWrite_run, !bus_run_app.
  reflexivity.
Qed.

Lemma acquire_hang (fuel : nat) (s1 : hw) :
  poll bus fuel (conv_state s1) = None -> acquire bus fuel s1 = None.
Proof. intros H. rewrite acquire_poll, H. reflexivity. Qed.

Lemma acquire_run (fuel : nat) (s1 s3 : hw) :
  length (DataBytes s1) = 9%nat ->
  poll bus fuel (conv_state s1) = Some (tt, s3) ->
  exists s4 : hw,
    acquire bus fuel s1 = Some (tt, s4) /\
    DataBytes s4 = read_values bus 9 (trace (scratch_state bus s3)).
Proof.
  intros Hlen Hpoll. rewrite acquire_poll, Hpoll.
  destruct (OneWireReadBytes_9 bus (scratch_state bus s3)) as (s4 & Hrun & Hd & _).
  - cbn [scratch_state bus_run DataBytes].
    rewrite (poll_DataBytes _ _ _ Hpoll). exact Hlen.
  - exists s4. split; assumption.
Qed.

Lemma acquire_buffer (fuel : nat) (s1 s4 : hw) :
  length (DataBytes s1) = 9%nat ->
  acquire bus fuel s1 = Some (tt, s4) ->
  length (DataBytes s4) = 9%nat /\ Forall is_byte (DataBytes s4).
Proof.
  intros Hlen H.
  destruct (poll bus fuel (conv_state s1)) as [[[] s3]|] eqn:Hpoll.
  - destruct (acquire_run fuel s1 s3 Hlen Hpoll) as (s4' & Hrun & Hd).
    rewrite Hrun in H. injection H as <-. rewrite Hd. split.
    + apply read_values_length.
    + apply read_values_bytes.
  - rewrite acquire_hang in H by exact Hpoll. discriminate H.
Qed.

Lemma Temperature_absent (fuel : nat) (s s' : hw) :
  reset_level bus s = true ->
  DisplayError RedPin (bus_run (reset_events true) s) = Some (tt, s') ->
  Temperature bus fuel s = Some (0, s').
Proof.
  intros Hl Hd. unfold Temperature. unfold bind at 1.
  rewrite OneWireReset_run, Hl. cbn [Z.b2z].
  change (negb (1 =? 0)) with true. cbv iota.
  unfold bind. rewrite Hd. reflexivity.
Qed.

Lemma Temperature_hang (fuel : nat) (s : hw) :
  reset_level bus s = false ->
  acquire bus fuel (bus_run (reset_events false) s) = None ->
  Temperature bus fuel s = None.
Proof.
  intros Hl Ha. unfold Temperature. unfold bind at 1.
  rewrite OneWireReset_run, Hl. cbn [Z.b2z].
  change (negb (0 =? 0)) with false. cbv iota.
  unfold bind. rewrite Ha. reflexivity.
Qed.

Lemma Temperature_valid (fuel : nat) (s s4 : hw) :
  reset_level bus s = false ->
  length (DataBytes s) = 9%nat ->
  acquire bus fuel (bus_run (reset_events false) s) = Some (tt, s4) ->
  crc8_ref (DataBytes s4) = 0 ->
  Temperature bus fuel s =
  Some (to_int16 (nth 0 (DataBytes s4) 0 + 256 * nth 1 (DataBytes s4) 0), s4).
Proof.
  intros Hl Hlen Ha Hcrc.
  destruct (acquire_buffer fuel (bus_run (reset_events false) s) s4 Hlen Ha)
    as [Hlen4 Hb4].
  unfold Temperature. unfold bind at 1.
  rewrite OneWireReset_run, Hl. cbn [Z.b2z].
  change (negb (0 =? 0)) with false. cbv iota.
  unfold bind. rewrite Ha, OneWireCRC_9, Hcrc by assumption.
  change (0 =? 0) with true. cbv iota.
  fold (@bind Z (option Z) (load_DataWords 0)).
  unfold bind. rewrite load_DataWords_0 by exact Hlen4. reflexivity.
Qed.

Lemma Temperature_crc_error (fuel : nat) (s s4 s' : hw) :
  reset_level bus s = false ->
  length (DataBytes s) = 9%nat ->
  acquire bus fuel (bus_run (reset_events false) s) = Some (tt, s4) ->
  crc8_ref (DataBytes s4) <> 0 ->
  DisplayError GreenPin s4 = Some (tt, s') ->
  Temperature bus fuel s = Some (0, s').
Proof.
  intros Hl Hlen Ha Hcrc Hd.
  destruct (acquire_buffer fuel (bus_run (reset_events false) s) s4 Hlen Ha)
    as [Hlen4 Hb4].
  unfold Temperature. unfold bind at 1.
  rewrite OneWireReset_run, Hl. cbn [Z.b2z].
  change (negb (0 =? 0)) with false. cbv iota.
  unfold bind. rewrite Ha, OneWireCRC_9 by assumption.
  apply Z.eqb_neq in Hcrc. rewrite Hcrc, Hd. reflexivity.
Qed.

End TemperatureFacts.











Section CycleFrame.

Variable bus : list event -> bool.







End CycleFrame.

Section CycleOutcomes.

Variable bus : list event -> bool.
Variable fuel : nat.
Variable s : hw.
Hypothesis Hlen : length (DataBytes s) = 9%nat.
Hypothesis Hp : is_byte (PORTB s).
Hypothesis Hr : Z.testbit (PORTB s) RedPin = false.
Hypothesis Hg : Z.testbit (PORTB s) GreenPin = false.
Hypothesis Hfl : wd_flag s = false.





End CycleOutcomes.


(** ** Simulated sensors *)

Example crc_power_on : crc8_ref power_on_scratchpad = 0.
Proof. reflexivity. Qed.

Example Temperature_power_on :
  option_map fst
    (Temperature (scripted_bus (sensor_script power_on_scratchpad)) 1
                 after_setup) = Some 1360.
Proof. vm_compute. reflexivity. Qed.

Example Temperature_minus10 :
  option_map fst
    (Temperature (scripted_bus (sensor_script minus10_scratchpad)) 1
                 after_setup) = Some (-162).
Proof. vm_compute. reflexivity. Qed.

Example Temperature_no_device :
  option_map (fun r => (fst r, trace (snd r)))
    (Temperature (scripted_bus []) 1 after_setup) =
  Some (0, [EvLow; EvDelay 480; EvRelease; EvDelay 70; EvSample true;
            EvDelay 410; EvPort 2; EvSleep 6; EvWake; EvPort 0; EvSleep 6;
            EvWake]).
Proof. vm_compute. reflexivity. Qed.

Example Temperature_never_ready :
  Temperature (scripted_bus (repeat false 17)) 2 after_setup = None.
Proof. vm_compute. reflexivity. Qed.

(** C10: on the DeviceNotFound path and on the CrcMismatch path Temperature
    returns 0, and so it does for a valid scratchpad whose reading is 0: the
    returned value does not tell the three apart. *)
Theorem Temperature_zero_on_failure_and_on_zero_reading :
  (forall (bus : list event -> bool) (fuel : nat) (s : hw),
     reset_level bus s = true ->
     exists s' : hw, Temperature bus fuel s = Some (0, s')) /\
  (forall (bus : list event -> bool) (fuel : nat) (s s4 : hw),
     length (DataBytes s) = 9%nat ->
     reset_level bus s = false ->
     acquire bus fuel (bus_run (reset_events false) s) = Some (tt, s4) ->
     crc8_ref (DataBytes s4) <> 0 ->
     exists s' : hw, Temperature bus fuel s = Some (0, s')) /\
  (exists s4 : hw,
     let bus := scripted_bus (sensor_script zero_scratchpad) in
     reset_level bus after_setup = false /\
     acquire bus 1 (bus_run (reset_events false) after_setup) = Some (tt, s4) /\
     DataBytes s4 = zero_scratchpad /\
     crc8_ref (DataBytes s4) = 0 /\
     Temperature bus 1 after_setup = Some (0, s4)) /\
  (exists s4 s' : hw,
     let bus := scripted_bus (sensor_script (flip_bit zero_scratchpad 0 0)) in
     reset_level bus after_setup = false /\
     acquire bus 1 (bus_run (reset_events false) after_setup) = Some (tt, s4) /\
     crc8_ref (DataBytes s4) <> 0 /\
     Temperature bus 1 after_setup = Some (0, s')) /\
  (exists s' : hw,
     reset_level (scripted_bus []) after_setup = true /\
     Temperature (scripted_bus []) 1 after_setup = Some (0, s')).
Proof.
  split; [|split; [|split; [|split]]].
  - intros bus fuel s Hl.
    destruct (DisplayError_total RedPin (bus_run (reset_events true) s))
      as [s' Hd].
    exists s'. apply Temperature_absent; assumption.
  - intros bus fuel s s4 Hlen Hl Ha Hcrc.
    destruct (DisplayError_total GreenPin s4) as [s' Hs'].
    exists s'. apply (Temperature_crc_error bus fuel s s4 s'); assumption.
  - eexists. cbv zeta. split; [reflexivity|].
    split; [vm_compute; reflexivity|].
    split; [reflexivity|]. split; [reflexivity|]. vm_compute. reflexivity.
  - eexists. eexists. cbv zeta. split; [reflexivity|].
    split; [vm_compute; reflexivity|].
    split; [vm_compute; discriminate|]. vm_compute. reflexivity.
  - eexists. split; [reflexivity|]. vm_compute. reflexivity.
Qed.

(** ** Loopback bus *)

Lemma scan_idle_app (h x : list event) : bus_idle h -> scan (h ++ x) = scan x.
Proof.
  unfold bus_idle, scan. intros H. rewrite fold_left_app, H. reflexivity.
Qed.

Lemma loopback_idle_app (h x : list event) :
  bus_idle h -> loopback (h ++ x) = loopback x.
Proof. intros H. unfold loopback. rewrite scan_idle_app by exact H. reflexivity. Qed.

Lemma read_bits_loopback_idle (n : nat) : forall h x : list event,
  bus_idle h -> read_bits loopback n (h ++ x) = read_bits loopback n x.
Proof.
  induction n as [|n IH]; intros h x H; [reflexivity|].
  cbn [read_bits]. rewrite <- !app_assoc, !loopback_idle_app by exact H.
  f_equal. apply IH. exact H.
Qed.

Lemma loopback_echo (data : Z) :
  is_byte data ->
  assemble (read_bits loopback 8 (flat_map write_slot (bits_lsb 8 data))) 0 0 =
  data.
Proof.
  intros Hd. apply Z.eqb_eq.
  apply (byte_forall
           (fun x => assemble (read_bits loopback 8
                                 (flat_map write_slot (bits_lsb 8 x))) 0 0 =? x));
    [vm_compute; reflexivity | exact Hd].
Qed.

(** C6: on a loopback bus, writing a byte with OneWireWrite and then
    reading a byte with OneWireRead gives the byte written. *)
Theorem loopback_write_read_round_trip (data : Z) (s : hw) :
  is_byte data ->
  bus_idle (trace s) ->
  exists s' : hw,
    (OneWireWrite data ;; OneWireRead loopback) s = Some (data, s').
Proof.
  intros Hd Hidle. unfold bind. rewrite OneWireWrite_run, OneWireRead_run.
  eexists. f_equal. f_equal. unfold read_value. cbn [trace bus_run].
  rewrite read_bits_loopback_idle by exact Hidle.
  apply loopback_echo. exact Hd.
Qed.

(** * Concrete instances *)

Lemma power_on_state_bytes : Forall is_byte (DataBytes power_on_state).
Proof.
  cbn [power_on_state set_DataBytes DataBytes]. unfold power_on_scratchpad.
  repeat (apply Forall_cons; [unfold is_byte; lia|]). apply Forall_nil.
Qed.


(** The CRC of the power-on scratchpad, all 9 bytes. *)
Lemma OneWireCRC_refines_reference_witness :
  Forall is_byte (DataBytes power_on_state) /\
  9 <= Z.of_nat (length (DataBytes power_on_state)) /\
  OneWireCRC 9 power_on_state =
    Some (crc8_ref (firstn (Z.to_nat 9) (DataBytes power_on_state)),
          power_on_state) /\
  (forall (d : list Z) (c : Z),
     Forall is_byte d -> is_byte c ->
     (crc8_ref (d ++ [c]) = 0 <-> c = crc8_ref d)).
Proof.
  assert (H1 : Forall is_byte (DataBytes power_on_state))
    by exact power_on_state_bytes.
  assert (H2 : 9 <= Z.of_nat (length (DataBytes power_on_state)))
    by (cbn; lia).
  split; [exact H1|]. split; [exact H2|].
  exact (OneWireCRC_refines_reference 9 power_on_state H1 H2).
Defined.

(** The byte 0xA5 written to and read back from a fresh loopback bus. *)
Lemma loopback_write_read_round_trip_witness :
  is_byte 0xA5 /\ bus_idle (trace after_setup) /\
  exists s' : hw,
    (OneWireWrite 0xA5 ;; OneWireRead loopback) after_setup = Some (0xA5, s').
Proof.
  assert (H1 : is_byte 0xA5) by (unfold is_byte; lia).
  assert (H2 : bus_idle (trace after_setup)) by reflexivity.
  split; [exact H1|]. split; [exact H2|].
  exact (loopback_write_read_round_trip 0xA5 after_setup H1 H2).
Defined.

(** Bit 5 of byte 3 of the power-on scratchpad inverted. *)
Lemma OneWireCRC_detects_single_bit_flip_witness :
  length (DataBytes power_on_state) = 9%nat /\
  Forall is_byte (DataBytes power_on_state) /\
  OneWireCRC 9 power_on_state = Some (0, power_on_state) /\
  (3 < 9)%nat /\ 0 <= 5 < 8 /\
  exists c : Z,
    OneWireCRC 9
      (set_DataBytes (flip_bit (DataBytes power_on_state) 3 5) power_on_state) =
      Some (c, set_DataBytes (flip_bit (DataBytes power_on_state) 3 5)
                             power_on_state) /\
    c <> 0.
Proof.
  assert (H1 : length (DataBytes power_on_state) = 9%nat) by reflexivity.
  assert (H2 : Forall is_byte (DataBytes power_on_state))
    by exact power_on_state_bytes.
  assert (H3 : OneWireCRC 9 power_on_state = Some (0, power_on_state))
    by (vm_compute; reflexivity).
  assert (H4 : (3 < 9)%nat) by lia.
  assert (H5 : 0 <= 5 < 8) by lia.
  repeat (split; [assumption|]).
  exact (OneWireCRC_detects_single_bit_flip power_on_state 3 5 H1 H2 H3 H4 H5).
Defined.


Example flash_bits_A5 :
  flash_bits 0xA5 = [true; false; true; false; false; true; false; true] /\
  flash_bits 0x05 = [true; false; true] /\
  flash_bits 0 = [false].
Proof. repeat split. Qed.

(** * Further properties of the code *)

(** ** Negabinary *)

(** X7: NegaBinary gives the 16-digit base -2 representation of its
    argument: read in base -2 the result is the argument again, for every
    value 16 negabinary digits can hold (-43690 to 21845, negative values
    passed as 16-bit two's complement). *)
Theorem NegaBinary_represents (x : Z) :
  -43690 <= x <= 21845 ->
  nb_value 16 (NegaBinary x) = x /\ 0 <= NegaBinary x < 65536.
Proof.
  intros Hx. split.
  - pose (chk := fun k => nb_value 16 (NegaBinary (k - 43690)) =? k - 43690).
    assert (H : forallb (fun hi => forallb (fun lo => chk (256 * hi + lo))
                                            all_bytes) all_bytes = true)
      by (vm_compute; reflexivity).
    pose proof (byte_forall _ H ((x + 43690) / 256)) as Hhi.
    cbv beta in Hhi.
    assert (Hb : is_byte ((x + 43690) / 256)).
    { unfold is_byte. split; [apply Z.div_pos; lia|].
      apply Z.div_lt_upper_bound; lia. }
    specialize (Hhi Hb).
    pose proof (byte_forall _ Hhi ((x + 43690) mod 256)) as Hlo.
    cbv beta in Hlo.
    assert (Hm : is_byte ((x + 43690) mod 256))
      by (unfold is_byte; apply Z.mod_pos_bound; lia).
    specialize (Hlo Hm). unfold chk in Hlo.
    rewrite <- Z.div_mod in Hlo by lia.
    apply Z.eqb_eq in Hlo. replace (x + 43690 - 43690) with x in Hlo by lia.
    exact Hlo.
  - unfold NegaBinary, u16. apply Z.mod_pos_bound. lia.
Qed.

Lemma NegaBinary_represents_witness :
  -43690 <= -162 <= 21845 /\
  nb_value 16 (NegaBinary (-162)) = -162 /\ 0 <= NegaBinary (-162) < 65536.
Proof.
  assert (H : -43690 <= -162 <= 21845) by lia.
  split; [exact H|]. exact (NegaBinary_represents (-162) H).
Defined.

(** ** Bit slots *)

Lemma assemble_testbit (bits : list bool) (i : nat) :
  length bits = 8%nat -> (i < 8)%nat ->
  Z.testbit (assemble bits 0 0) (Z.of_nat i) = nth i bits false.
Proof.
  intros Hlen Hi.
  do 8 (destruct bits as [|? bits]; [discriminate Hlen|]).
  destruct bits; [|discriminate Hlen]. clear Hlen.
  do 8 (destruct i as [|i];
        [repeat match goal with b : bool |- _ => destruct b end; reflexivity|]).
  lia.
Qed.

(** X1: OneWireRead takes 8 read slots, each 6us low, 9us released, a
    sample, and 55us more; every sample is the level the bus gives at that
    point, and the byte returned has the i-th sample as its bit i.  In every
    slot the low time is the bus pin made an output by PinLow and the
    release the pin made an input by PinRelease; the pin is an input when
    the call returns. *)
Theorem OneWireRead_slots_and_bits (bus : list event -> bool) (s : hw) :
  exists (v : Z) (s' : hw),
    OneWireRead bus s = Some (v, s') /\
    trace s' =
      trace s ++
      flat_map (fun b : bool =>
                  [EvLow; EvDelay 6; EvRelease; EvDelay 9; EvSample b;
                   EvDelay 55])
               (read_bits bus 8 (trace s)) /\
    is_byte v /\
    (forall i : nat, (i < 8)%nat ->
       Z.testbit v (Z.of_nat i) = nth i (read_bits bus 8 (trace s)) false) /\
    DDRB s' = Z.land (DDRB s) 254 /\
    Z.testbit (DDRB s') OneWirePin = false /\
    forall s0 : hw,
    exists s_low s_rel : hw,
      PinLow s0 = Some (tt, s_low) /\
      Z.testbit (DDRB s_low) OneWirePin = true /\
      (DelayMicros 6 ;; PinRelease) s_low = Some (tt, s_rel) /\
      Z.testbit (DDRB s_rel) OneWirePin = false /\
      LowRelease 6 9 s0 = DelayMicros 9 s_rel.
Proof.
  exists (read_value bus s), (read_state bus s).
  split; [apply OneWireRead_run|]. split; [reflexivity|].
  split; [apply read_value_byte|]. split.
  - intros i Hi. apply assemble_testbit; [apply read_bits_length | exact Hi].
  - split; [reflexivity|]. split; [apply bus_run_input|].
    intros s0.
    destruct (LowRelease_phases 6 9 s0)
      as (s_low & s_rel & H1 & H2 & H3 & H4 & _ & H6).
    exists s_low, s_rel. repeat (split; [assumption|]). exact H6.
Qed.

Lemma elapsed_from (h : list event) : forall t : Z,
  fold_left (fun t e => match e with EvDelay us => t + us | _ => t end) h t =
  t + elapsed h.
Proof.
  unfold elapsed. induction h as [|e h IH]; intros t; cbn [fold_left]; [lia|].
  rewrite IH, (IH (match e with EvDelay us => 0 + us | _ => 0 end)).
  destruct e; lia.
Qed.

Lemma elapsed_app (a b : list event) : elapsed (a ++ b) = elapsed a + elapsed b.
Proof. unfold elapsed at 1. rewrite fold_left_app. apply elapsed_from. Qed.

Lemma elapsed_write_slots (bits : list bool) :
  elapsed (flat_map write_slot bits) = 70 * Z.of_nat (length bits).
Proof.
  induction bits as [|b bits IH]; [reflexivity|].
  cbn [flat_map length]. rewrite elapsed_app, IH, Nat2Z.inj_succ.
  replace (elapsed (write_slot b)) with 70 by (destruct b; reflexivity). lia.
Qed.

Lemma elapsed_read_slots (bits : list bool) :
  elapsed (flat_map read_slot bits) = 70 * Z.of_nat (length bits).
Proof.
  induction bits as [|b bits IH]; [reflexivity|].
  cbn [flat_map length]. rewrite elapsed_app, IH, Nat2Z.inj_succ.
  change (elapsed (read_slot b)) with 70. lia.
Qed.

(** X3: every bit slot lasts 70us whatever the bit: writing a byte and
    reading a byte each take 560us of timed delay, a bus reset 960us. *)
Theorem bus_operations_duration (bus : list event -> bool) (data : Z) (s : hw) :
  (exists s' : hw,
     OneWireWrite data s = Some (tt, s') /\
     elapsed (trace s') = elapsed (trace s) + 560) /\
  (exists (v : Z) (s' : hw),
     OneWireRead bus s = Some (v, s') /\
     elapsed (trace s') = elapsed (trace s) + 560) /\
  (exists (r : Z) (s' : hw),
     OneWireReset bus s = Some (r, s') /\
     elapsed (trace s') = elapsed (trace s) + 960).
Proof.
  split; [|split].
  - eexists. split; [apply OneWireWrite_run|].
    cbn [trace bus_run]. rewrite elapsed_app, elapsed_write_slots.
    rewrite bits_lsb_length. lia.
  - eexists. eexists. split; [apply OneWireRead_run|].
    cbn [trace read_state bus_run]. rewrite elapsed_app, elapsed_read_slots.
    rewrite read_bits_length. lia.
  - eexists. eexists. split; [apply OneWireReset_run|].
    cbn [trace bus_run]. rewrite elapsed_app.
    change (elapsed (reset_events (reset_level bus s))) with 960. lia.
Qed.

Lemma scan_write_slots (bits : list bool) : forall acc : list Z,
  fold_left scan_step (flat_map write_slot bits) (None, acc) =
  (None, acc ++ map (fun b : bool => if b then 6 else 60) bits).
Proof.
  induction bits as [|b bits IH]; intros acc; cbn [flat_map map].
  - rewrite app_nil_r. reflexivity.
  - rewrite fold_left_app. cbn [write_slot fold_left scan_step fst snd option_map].
    rewrite IH, <- app_assoc. cbn [app]. rewrite Z.add_0_r. reflexivity.
Qed.

(** X13: what OneWireWrite puts on an idle bus can be read back from the
    line: it leaves exactly 8 low pulses, 6us wide for a 1 and 60us for a 0,
    and taking every pulse shorter than 15us as a 1, least significant bit
    first, gives the byte written.  Every pulse is the bus pin made an output
    by PinLow and an input again by PinRelease, and the pin is an input at
    the end. *)
Theorem OneWireWrite_decodable (data : Z) (s : hw) :
  is_byte data ->
  bus_idle (trace s) ->
  exists s' : hw,
    OneWireWrite data s = Some (tt, s') /\
    scan (trace s') =
      (None, map (fun i : Z => if Z.testbit data i then 6 else 60)
                 [0; 1; 2; 3; 4; 5; 6; 7]) /\
    assemble (map (fun w : Z => w <? 15) (snd (scan (trace s')))) 0 0 = data /\
    DDRB s' = Z.land (DDRB s) 254 /\
    Z.testbit (DDRB s') OneWirePin = false /\
    forall (del : Z) (s0 : hw),
    exists s_low s_rel : hw,
      PinLow s0 = Some (tt, s_low) /\
      Z.testbit (DDRB s_low) OneWirePin = true /\
      (DelayMicros del ;; PinRelease) s_low = Some (tt, s_rel) /\
      Z.testbit (DDRB s_rel) OneWirePin = false /\
      LowRelease del (70 - del) s0 = DelayMicros (70 - del) s_rel.
Proof.
  intros Hd Hidle. eexists. split; [apply OneWireWrite_run|].
  cbn [trace bus_run DDRB]. rewrite scan_idle_app by exact Hidle.
  unfold scan. rewrite scan_write_slots. cbn [app snd]. split.
  - rewrite bits_lsb_8, map_map. reflexivity.
  - split.
    + rewrite map_map.
      rewrite (map_ext _ (fun b : bool => b))
        by (intros b; destruct b; reflexivity).
      rewrite map_id. apply assemble_bits_lsb. exact Hd.
    + split; [reflexivity|]. split; [apply (bus_run_input [] s)|].
      intros del s0.
      destruct (LowRelease_phases del (70 - del) s0)
        as (s_low & s_rel & H1 & H2 & H3 & H4 & _ & H6).
      exists s_low, s_rel. repeat (split; [assumption|]). exact H6.
Qed.

Lemma OneWireWrite_decodable_witness :
  is_byte 0xBE /\ bus_idle (trace after_setup) /\
  exists s' : hw,
    OneWireWrite 0xBE after_setup = Some (tt, s') /\
    scan (trace s') = (None, [60; 6; 6; 6; 6; 6; 60; 6]) /\
    Z.testbit (DDRB s') OneWirePin = false.
Proof.
  assert (H1 : is_byte 0xBE) by (unfold is_byte; lia).
  assert (H2 : bus_idle (trace after_setup)) by reflexivity.
  split; [exact H1|]. split; [exact H2|].
  destruct (OneWireWrite_decodable 0xBE after_setup H1 H2)
    as (s' & Hr & Hs & _ & _ & Hb & _).
  exists s'. split; [exact Hr|]. split; [exact Hs | exact Hb].
Defined.

(** ** The buffer *)

(** X4: OneWireReadBytes(n), for n within the buffer, stores the n bytes it
    reads one after the other at indices 0 to n-1, in the order read, and
    leaves the rest of the buffer as it was; for n <= 0 it reads nothing. *)
Theorem OneWireReadBytes_fills_prefix
    (bus : list event -> bool) (bytes : Z) (s : hw) :
  bytes <= Z.of_nat (length (DataBytes s)) ->
  exists s' : hw,
    OneWireReadBytes bus bytes s = Some (tt, s') /\
    DataBytes s' =
      read_values bus (Z.to_nat bytes) (trace s) ++
      skipn (Z.to_nat bytes) (DataBytes s) /\
    length (DataBytes s') = length (DataBytes s) /\
    Forall is_byte (firstn (Z.to_nat bytes) (DataBytes s')) /\
    trace s' = read_history bus (Z.to_nat bytes) (trace s).
Proof.
  intros Hn. unfold OneWireReadBytes.
  destruct (OneWireReadBytes_loop_run bus (Z.to_nat bytes) [] (DataBytes s) s)
    as (s' & Hrun & Hdata & Htr); [reflexivity | lia |].
  cbn [app] in Hdata.
  exists s'. split; [exact Hrun|]. split; [exact Hdata|].
  split; [|split; [|exact Htr]].
  - rewrite Hdata, length_app, read_values_length, length_skipn. lia.
  - rewrite Hdata, firstn_app, read_values_length, PeanoNat.Nat.sub_diag.
    cbn [firstn]. rewrite app_nil_r.
    rewrite firstn_all2 by (rewrite read_values_length; lia).
    apply read_values_bytes.
Qed.

Lemma OneWireReadBytes_fills_prefix_witness :
  2 <= Z.of_nat (length (DataBytes power_on_state)) /\
  exists s' : hw,
    OneWireReadBytes (scripted_bus (repeat false 9)) 2 power_on_state =
      Some (tt, s') /\
    DataBytes s' =
      read_values (scripted_bus (repeat false 9)) (Z.to_nat 2)
                  (trace power_on_state) ++
      skipn (Z.to_nat 2) (DataBytes power_on_state) /\
    length (DataBytes s') = length (DataBytes power_on_state) /\
    Forall is_byte (firstn (Z.to_nat 2) (DataBytes s')) /\
    trace s' = read_history (scripted_bus (repeat false 9)) (Z.to_nat 2)
                            (trace power_on_state).
Proof.
  assert (H : 2 <= Z.of_nat (length (DataBytes power_on_state)))
    by (cbn; lia).
  split; [exact H|].
  exact (OneWireReadBytes_fills_prefix (scripted_bus (repeat false 9)) 2
           power_on_state H).
Defined.

Example OneWireReadBytes_two :
  option_map (fun r => DataBytes (snd r))
    (OneWireReadBytes (scripted_bus (repeat false 9)) 2 power_on_state) =
  Some [0x00; 0xFE; 0x4B; 0x46; 0x7F; 0xFF; 0x0C; 0x10; 0x1C].
Proof. vm_compute. reflexivity. Qed.

Lemma Forall_prefix {A} (P : A -> Prop) (n : nat) : forall l : list A,
  Forall P l -> Forall P (firstn n l).
Proof.
  induction n as [|n IH]; intros l H; [constructor|].
  destruct l as [|a l]; [constructor|].
  inversion H; subst. cbn [firstn]. constructor; auto.
Qed.

Lemma crc8_zeros (l : list Z) :
  Forall (fun b => b = 0) l -> fold_left crc8_byte l 0 = 0.
Proof.
  induction l as [|b l IH]; intros H; [reflexivity|].
  inversion H; subst. cbn [fold_left].
  change (crc8_byte 0 0) with 0. apply IH. assumption.
Qed.

(** X5: a buffer of zero bytes has CRC 0, over any number of its bytes; so
    a read cycle in which the sensor answers the reset and the line then
    reads low for the whole scratchpad ends as a valid reading of 0, with
    no error shown. *)
Theorem all_zero_buffer_passes_crc :
  (forall (bytes : Z) (s : hw),
     Forall (fun b => b = 0) (DataBytes s) ->
     bytes <= Z.of_nat (length (DataBytes s)) ->
     OneWireCRC bytes s = Some (0, s)) /\
  (forall (bus : list event -> bool) (fuel : nat) (s s4 : hw),
     length (DataBytes s) = 9%nat ->
     reset_level bus s = false ->
     acquire bus fuel (bus_run (reset_events false) s) = Some (tt, s4) ->
     Forall (fun b => b = 0) (DataBytes s4) ->
     Temperature bus fuel s = Some (0, s4)) /\
  (exists s4 : hw,
     Temperature (scripted_bus ([false] ++ repeat true 8 ++ repeat false 73)) 1
                 after_setup = Some (0, s4) /\
     DataBytes s4 = repeat 0 9).
Proof.
  assert (Hz : forall l, Forall (fun b => b = 0) l -> Forall is_byte l).
  { intros l H. eapply Forall_impl; [|exact H].
    intros b ->. unfold is_byte. lia. }
  split; [|split].
  - intros bytes s H0 Hn. rewrite OneWireCRC_run by auto.
    unfold crc8_ref. rewrite crc8_zeros; [reflexivity|].
    apply Forall_prefix. exact H0.
  - intros bus fuel s s4 Hlen Hl Ha H0.
    rewrite (Temperature_valid bus fuel s s4 Hl Hlen Ha).
    + destruct (DataBytes s4) as [|b0 [|b1 l]];
        [reflexivity | inversion H0; subst; reflexivity |].
      inversion H0 as [|? ? E0 H1]; subst.
      inversion H1; subst. reflexivity.
    + apply crc8_zeros. exact H0.
  - eexists. split; vm_compute; reflexivity.
Qed.

Lemma crc8_units_differ (i j : nat) (k m : Z) :
  (i < 9)%nat -> (j < 9)%nat -> 0 <= k < 8 -> 0 <= m < 8 ->
  i <> j \/ k <> m ->
  crc8_ref (flip_bit (repeat 0 9%nat) i k) <>
  crc8_ref (flip_bit (repeat 0 9%nat) j m).
Proof.
  intros Hi Hj Hk Hm Hne.
  pose (chk := fun (i j : nat) (k m : Z) =>
                 (Nat.eqb i j && (k =? m)) ||
                 negb (crc8_ref (flip_bit (repeat 0 9%nat) i k) =?
                       crc8_ref (flip_bit (repeat 0 9%nat) j m))).
  assert (H : forallb (fun i => forallb (fun j => forallb (fun k =>
                forallb (fun m => chk i j k m) (Z_range 8)) (Z_range 8))
                (seq 0 9)) (seq 0 9) = true) by (vm_compute; reflexivity).
  rewrite forallb_forall in H.
  assert (Hin : In i (seq 0 9)) by (apply in_seq; lia).
  specialize (H i Hin). rewrite forallb_forall in H.
  assert (Hjn : In j (seq 0 9)) by (apply in_seq; lia).
  specialize (H j Hjn).
  pose proof (range_forall 8 _ H k Hk) as Hk'. cbv beta in Hk'.
  pose proof (range_forall 8 _ Hk' m Hm) as Hm'. unfold chk in Hm'.
  apply orb_true_iff in Hm'. destruct Hm' as [E|E].
  - apply andb_true_iff in E. destruct E as [E1 E2].
    apply PeanoNat.Nat.eqb_eq in E1. apply Z.eqb_eq in E2.
    destruct Hne; contradiction.
  - apply negb_true_iff, Z.eqb_neq in E. exact E.
Qed.

(** X6: the checksum also detects every double-bit error: if the CRC over
    a 9-byte buffer is 0, inverting any two different bits of the buffer
    gives a CRC that is not 0. *)
Theorem OneWireCRC_detects_double_bit_flip
    (s : hw) (i j : nat) (k m : Z) :
  length (DataBytes s) = 9%nat ->
  Forall is_byte (DataBytes s) ->
  OneWireCRC 9 s = Some (0, s) ->
  (i < 9)%nat -> (j < 9)%nat -> 0 <= k < 8 -> 0 <= m < 8 ->
  i <> j \/ k <> m ->
  let buf := flip_bit (flip_bit (DataBytes s) i k) j m in
  exists c : Z,
    OneWireCRC 9 (set_DataBytes buf s) = Some (c, set_DataBytes buf s) /\
    c <> 0.
Proof.
  intros Hlen Hb Hcrc Hi Hj Hk Hm Hne buf.
  rewrite OneWireCRC_9 in Hcrc by assumption. injection Hcrc as Hcrc.
  eexists. split.
  - apply OneWireCRC_9; cbn [DataBytes set_DataBytes]; subst buf.
    + rewrite !flip_bit_length. exact Hlen.
    + apply flip_bit_bytes; [exact Hm|]. apply flip_bit_bytes; assumption.
  - cbn [DataBytes set_DataBytes]. subst buf. unfold crc8_ref in *.
    rewrite crc8_fold_flip by (rewrite flip_bit_length; lia).
    rewrite crc8_fold_flip by lia.
    rewrite flip_bit_length, Hcrc, Hlen, Z.lxor_0_l.
    intros E. apply -> Z.lxor_eq_0_iff in E.
    exact (crc8_units_differ i j k m Hi Hj Hk Hm Hne E).
Qed.

Lemma OneWireCRC_detects_double_bit_flip_witness :
  length (DataBytes power_on_state) = 9%nat /\
  Forall is_byte (DataBytes power_on_state) /\
  OneWireCRC 9 power_on_state = Some (0, power_on_state) /\
  (0 < 9)%nat /\ (8 < 9)%nat /\ 0 <= 7 < 8 /\ 0 <= 0 < 8 /\
  (0%nat <> 8%nat \/ 7 <> 0) /\
  let buf := flip_bit (flip_bit (DataBytes power_on_state) 0 7) 8 0 in
  exists c : Z,
    OneWireCRC 9 (set_DataBytes buf power_on_state) =
      Some (c, set_DataBytes buf power_on_state) /\
    c <> 0.
Proof.
  assert (H1 : length (DataBytes power_on_state) = 9%nat) by reflexivity.
  assert (H2 : Forall is_byte (DataBytes power_on_state))
    by exact power_on_state_bytes.
  assert (H3 : OneWireCRC 9 power_on_state = Some (0, power_on_state))
    by (vm_compute; reflexivity).
  assert (H4 : (0 < 9)%nat) by lia.
  assert (H5 : (8 < 9)%nat) by lia.
  assert (H6 : 0 <= 7 < 8) by lia.
  assert (H7 : 0 <= 0 < 8) by lia.
  assert (H8 : 0%nat <> 8%nat \/ 7 <> 0) by (right; lia).
  repeat (split; [assumption|]).
  exact (OneWireCRC_detects_double_bit_flip power_on_state 0 8 7 0
           H1 H2 H3 H4 H5 H6 H7 H8).
Defined.

(** ** The display *)

Lemma msb_bits_low (v : Z) : msb_bits 8 (v mod 256) = msb_bits 8 (u16 v).
Proof.
  cbn [msb_bits]. fold (u8 v). rewrite !testbit_u8.
  unfold u16. change 65536 with (2 ^ 16).
  rewrite !Z.mod_pow2_bits_low by (cbn; lia). reflexivity.
Qed.

Lemma Flash_low_byte (v : Z) (s : hw) :
  Flash v s = pulse_seq (map led_of_bit (flash_bits (v mod 256))) s.
Proof.
  unfold Flash. rewrite Flash_loop_scan, <- msb_bits_low.
  change (negb (0 =? 0)) with false.
  rewrite flash_scan_bits by (apply (u8_range v)). reflexivity.
Qed.



Example Flash_above_byte :
  Flash 0x105 after_setup = Flash 0x05 after_setup /\
  flash_bits (0x105 mod 256) = [true; false; true].
Proof. split; [rewrite !Flash_low_byte|]; reflexivity. Qed.

(** The LED on pin [pin] lit for one watchdog period of code [on], then
    dark for one of code 6. *)
Lemma led_flash_run (on pin : Z) (s : hw) :
  0 <= pin < 8 -> is_byte (PORTB s) -> wd_flag s = false -> 0 <= on < 16 ->
  exists s' : hw,
    (p <- gets PORTB ;;
     write_PORTB (Z.lor p (Z.shiftl 1 pin)) ;;
     WDDelay on ;;
     p <- gets PORTB ;;
     write_PORTB (Z.land p (Z.lnot (Z.shiftl 1 pin))) ;;
     WDDelay 6) s = Some (tt, s') /\
    trace s' =
      trace s ++ [EvPort (Z.setbit (PORTB s) pin); EvSleep on; EvWake;
                  EvPort (Z.clearbit (PORTB s) pin); EvSleep 6; EvWake] /\
    PORTB s' = Z.clearbit (PORTB s) pin /\
    DDRB s' = DDRB s /\
    DataBytes s' = DataBytes s.
Proof.
  intros Hpin Hp Hfl Hon.
  unfold bind, gets, write_PORTB, modify.
  rewrite WDDelay_run. rewrite WDDelay_run. eexists. split; [reflexivity|].
  cbn [slept log set_PORTB trace PORTB DDRB DataBytes wd_flag].
  rewrite Hfl. rewrite u8_setbit by assumption.
  rewrite u8_clearbit by (try apply setbit_byte; try assumption; lia).
  rewrite clearbit_setbit by lia.
  unfold sleep_events. rewrite wdp_of_wd_reg by exact Hon.
  rewrite <- !app_assoc. cbn [app]. repeat split; reflexivity.
Qed.

(** X9: with no watchdog interrupt pending, DisplayError lights the LED of
    its pin for one watchdog period of code 6 (1 s) and Pulse for one of code
    0 (16 ms); both then keep it dark for a period of code 6.  The other
    port bits are written back as they were, and the LED bit is left
    clear. *)
Theorem DisplayError_and_Pulse_effect (pin : Z) (s : hw) :
  0 <= pin < 8 -> is_byte (PORTB s) -> wd_flag s = false ->
  (exists s' : hw,
     DisplayError pin s = Some (tt, s') /\
     trace s' =
       trace s ++ [EvPort (Z.setbit (PORTB s) pin); EvSleep 6; EvWake;
                   EvPort (Z.clearbit (PORTB s) pin); EvSleep 6; EvWake] /\
     PORTB s' = Z.clearbit (PORTB s) pin /\
     DDRB s' = DDRB s /\ DataBytes s' = DataBytes s) /\
  (exists s' : hw,
     Pulse pin s = Some (tt, s') /\
     trace s' =
       trace s ++ [EvPort (Z.setbit (PORTB s) pin); EvSleep 0; EvWake;
                   EvPort (Z.clearbit (PORTB s) pin); EvSleep 6; EvWake] /\
     PORTB s' = Z.clearbit (PORTB s) pin /\
     DDRB s' = DDRB s /\ DataBytes s' = DataBytes s).
Proof.
  intros Hpin Hp Hfl. split.
  - apply (led_flash_run 6 pin s); try assumption; lia.
  - apply (led_flash_run 0 pin s); try assumption; lia.
Qed.

Lemma DisplayError_and_Pulse_effect_witness :
  0 <= RedPin < 8 /\ is_byte (PORTB after_setup) /\
  wd_flag after_setup = false /\
  (exists s' : hw,
     DisplayError RedPin after_setup = Some (tt, s') /\
     trace s' =
       trace after_setup ++
       [EvPort (Z.setbit (PORTB after_setup) RedPin); EvSleep 6; EvWake;
        EvPort (Z.clearbit (PORTB after_setup) RedPin); EvSleep 6; EvWake] /\
     PORTB s' = Z.clearbit (PORTB after_setup) RedPin /\
     DDRB s' = DDRB after_setup /\ DataBytes s' = DataBytes after_setup) /\
  (exists s' : hw,
     Pulse RedPin after_setup = Some (tt, s') /\
     trace s' =
       trace after_setup ++
       [EvPort (Z.setbit (PORTB after_setup) RedPin); EvSleep 0; EvWake;
        EvPort (Z.clearbit (PORTB after_setup) RedPin); EvSleep 6; EvWake] /\
     PORTB s' = Z.clearbit (PORTB after_setup) RedPin /\
     DDRB s' = DDRB after_setup /\ DataBytes s' = DataBytes after_setup).
Proof.
  assert (H1 : 0 <= RedPin < 8) by (unfold RedPin; lia).
  assert (H2 : is_byte (PORTB after_setup)) by (cbn; unfold is_byte; lia).
  assert (H3 : wd_flag after_setup = false) by reflexivity.
  split; [exact H1|]. split; [exact H2|]. split; [exact H3|].
  exact (DisplayError_and_Pulse_effect RedPin after_setup H1 H2 H3).
Defined.

(** ** The watchdog prescale *)

Lemma land_low4 (n m : Z) : Z.land 15 m = m -> Z.land (n mod 16) m = Z.land n m.
Proof.
  intros Hm. change 16 with (2 ^ 4). rewrite <- Z.land_ones by lia.
  change (Z.ones 4) with 15. rewrite <- Z.land_assoc, Hm. reflexivity.
Qed.

Lemma wd_reg_mod16 (n : Z) : wd_reg (n mod 16) = wd_reg n.
Proof.
  unfold wd_reg. rewrite !land_low4 by reflexivity. reflexivity.
Qed.

(** X10: WDDelay(n) spreads the four bits of n over the prescaler field of
    WDTCSR (bits 0-2 and bit 5), so that for 0 <= n < 16 the watchdog sleeps
    with prescale code n; it sets the interrupt enable bit and never bit 3,
    the watchdog's system-reset mode.  With nothing pending the call is one
    sleep period and one wake.  Only n modulo 16 counts. *)
Theorem WDDelay_programs_prescale (n : Z) (s : hw) :
  0 <= n < 16 -> wd_flag s = false ->
  (exists s' : hw,
     WDDelay n s = Some (tt, s') /\
     trace s' = trace s ++ [EvSleep n; EvWake]) /\
  wdp_of (wd_reg n) = n /\
  Z.testbit (wd_reg n) WDIE = true /\
  Z.testbit (wd_reg n) 3 = false /\
  forall k : Z, WDDelay (n + 16 * k) s = WDDelay n s.
Proof.
  intros Hn Hfl. split; [|split; [|split; [|split]]].
  - eexists. split; [apply WDDelay_run|].
    cbn [slept trace]. rewrite Hfl. unfold sleep_events.
    rewrite wdp_of_wd_reg by exact Hn. reflexivity.
  - apply wdp_of_wd_reg. exact Hn.
  - apply wd_reg_armed.
  - assert (H : negb (Z.testbit (wd_reg n) 3) = true).
    { apply (range_forall 16 (fun n => negb (Z.testbit (wd_reg n) 3)));
        [reflexivity | exact Hn]. }
    apply negb_true_iff in H. exact H.
  - intros k. rewrite !WDDelay_run. unfold sleep_events.
    rewrite <- (wd_reg_mod16 (n + 16 * k)).
    replace ((n + 16 * k) mod 16) with (n mod 16)
      by (rewrite (Z.mul_comm 16 k), Z.mod_add; [reflexivity | lia]).
    rewrite wd_reg_mod16. reflexivity.
Qed.

Lemma WDDelay_programs_prescale_witness :
  0 <= 9 < 16 /\ wd_flag after_setup = false /\
  (exists s' : hw,
     WDDelay 9 after_setup = Some (tt, s') /\
     trace s' = trace after_setup ++ [EvSleep 9; EvWake]) /\
  wdp_of (wd_reg 9) = 9 /\
  Z.testbit (wd_reg 9) WDIE = true /\
  Z.testbit (wd_reg 9) 3 = false /\
  forall k : Z, WDDelay (9 + 16 * k) after_setup = WDDelay 9 after_setup.
Proof.
  assert (H1 : 0 <= 9 < 16) by lia.
  assert (H2 : wd_flag after_setup = false) by reflexivity.
  split; [exact H1|]. split; [exact H2|].
  exact (WDDelay_programs_prescale 9 after_setup H1 H2).
Defined.

(** ** The main loop *)

Lemma pulse_then (pin : Z) (k k' : M unit) (s : hw) :
  (forall s1 : hw, k s1 = k' s1) ->
  (Pulse pin ;; k) s = (Pulse pin ;; k') s.
Proof.
  intros H. unfold bind. destruct (Pulse pin s) as [[[] s1]|]; [apply H|].
  reflexivity.
Qed.







(** ** The line is never held low *)

Lemma driver_events_app (x y : list event) :
  driver_events x -> driver_events y -> driver_events (x ++ y).
Proof.
  intros Hx Hy. induction Hx as [|w rest Hw _ IH|e rest He _ IH]; cbn [app].
  - exact Hy.
  - apply de_pulse; assumption.
  - apply de_quiet; assumption.
Qed.

Lemma driver_events_scan (x : list event) :
  driver_events x ->
  forall acc : list Z,
  exists ws : list Z,
    fold_left scan_step x (None, acc) = (None, acc ++ ws) /\
    Forall (fun w => w = 6 \/ w = 60 \/ w = 480) ws.
Proof.
  intros Hx. induction Hx as [|w rest Hw _ IH|e rest He _ IH]; intros acc.
  - exists []. rewrite app_nil_r. split; [reflexivity | constructor].
  - destruct (IH (acc ++ [w])) as (ws & Hs & Hf).
    exists (w :: ws). split.
    + cbn [fold_left scan_step fst snd option_map]. rewrite Z.add_0_r, Hs.
      rewrite <- app_assoc. reflexivity.
    + constructor; assumption.
  - destruct (IH acc) as (ws & Hs & Hf).
    exists ws. split; [|exact Hf].
    cbn [fold_left]. destruct e; try contradiction He; exact Hs.
Qed.

Lemma driver_events_quiet (x : list event) :
  Forall quiet x -> driver_events x.
Proof.
  induction 1 as [|e x He _ IH]; [apply de_nil | apply de_quiet; assumption].
Qed.

Lemma driver_events_reset (level : bool) : driver_events (reset_events level).
Proof.
  apply de_pulse; [lia|]. apply driver_events_quiet.
  repeat constructor.
Qed.

Lemma driver_events_write (bits : list bool) :
  driver_events (flat_map write_slot bits).
Proof.
  induction bits as [|b bits IH]; [apply de_nil|].
  cbn [flat_map write_slot app].
  apply de_pulse; [destruct b; lia|]. apply de_quiet; [exact I | exact IH].
Qed.

Lemma driver_events_read (bits : list bool) :
  driver_events (flat_map read_slot bits).
Proof.
  induction bits as [|b bits IH]; [apply de_nil|].
  cbn [flat_map read_slot read_pre app].
  apply de_pulse; [lia|]. repeat (apply de_quiet; [exact I|]). exact IH.
Qed.

Lemma keeps_bus_ret {A} (a : A) : keeps_bus (ret a).
Proof.
  intros s r s' H. injection H as <- <-. split; [left; reflexivity|].
  exists []. rewrite app_nil_r. split; [reflexivity | apply de_nil].
Qed.

Lemma keeps_bus_fail {A} : keeps_bus (@fail A).
Proof. intros s r s' H. discriminate H. Qed.

Lemma keeps_bus_bind {A B} (c : M A) (k : A -> M B) :
  keeps_bus c -> (forall a, keeps_bus (k a)) -> keeps_bus (bind c k).
Proof.
  intros Hc Hk s r s' H. unfold bind in H.
  destruct (c s) as [[a s1]|] eqn:E; [|discriminate H].
  destruct (Hc s a s1 E) as (Hd1 & x1 & Ht1 & Hx1).
  destruct (Hk a s1 r s' H) as (Hd2 & x2 & Ht2 & Hx2).
  split.
  - destruct Hd1 as [Hd1|Hd1], Hd2 as [Hd2|Hd2]; rewrite Hd2, Hd1; auto.
    right. rewrite <- Z.land_assoc. reflexivity.
  - exists (x1 ++ x2). rewrite Ht2, Ht1, <- app_assoc.
    split; [reflexivity | apply driver_events_app; assumption].
Qed.

(** A computation whose every run is a stretch of bus activity. *)
Lemma keeps_bus_run {A} (c : M A) :
  (forall s : hw, exists (r : A) (x : list event),
     c s = Some (r, bus_run x s) /\ driver_events x) ->
  keeps_bus c.
Proof.
  intros Hc s r s' H. destruct (Hc s) as (r0 & x & E & Hx).
  rewrite E in H. injection H as <- <-. split; [right; reflexivity|].
  exists x. split; [reflexivity | exact Hx].
Qed.

(** A computation that leaves the direction register alone and logs only
    quiet events. *)
Lemma keeps_bus_quiet {A} (c : M A) :
  (forall (s : hw) (r : A) (s' : hw), c s = Some (r, s') ->
     DDRB s' = DDRB s /\
     exists x : list event, trace s' = trace s ++ x /\ Forall quiet x) ->
  keeps_bus c.
Proof.
  intros Hc s r s' H. destruct (Hc s r s' H) as (Hd & x & Ht & Hx).
  split; [left; exact Hd|]. exists x.
  split; [exact Ht | apply driver_events_quiet; exact Hx].
Qed.

Lemma keeps_bus_WDDelay (n : Z) : keeps_bus (WDDelay n).
Proof.
  apply keeps_bus_quiet. intros s r s' H. rewrite WDDelay_run in H.
  injection H as <- <-. split; [reflexivity|].
  exists (sleep_events n (wd_flag s)). split; [reflexivity|].
  unfold sleep_events. destruct (wd_flag s); repeat constructor.
Qed.

Lemma keeps_bus_gets {A} (f : hw -> A) : keeps_bus (gets f).
Proof.
  apply keeps_bus_quiet. intros s r s' H. injection H as <- <-.
  split; [reflexivity|]. exists []. rewrite app_nil_r. split; constructor.
Qed.

Lemma keeps_bus_write_PORTB (v : Z) : keeps_bus (write_PORTB v).
Proof.
  apply keeps_bus_quiet. intros s r s' H. injection H as <- <-.
  split; [reflexivity|]. exists [EvPort (u8 v)].
  split; [reflexivity | repeat constructor].
Qed.

Lemma keeps_bus_led_flash (on pin : Z) :
  keeps_bus
    (p <- gets PORTB ;;
     write_PORTB (Z.lor p (Z.shiftl 1 pin)) ;;
     WDDelay on ;;
     p <- gets PORTB ;;
     write_PORTB (Z.land p (Z.lnot (Z.shiftl 1 pin))) ;;
     WDDelay 6).
Proof.
  apply keeps_bus_bind; [apply keeps_bus_gets | intros p].
  apply keeps_bus_bind; [apply keeps_bus_write_PORTB | intros _].
  apply keeps_bus_bind; [apply keeps_bus_WDDelay | intros _].
  apply keeps_bus_bind; [apply keeps_bus_gets | intros p'].
  apply keeps_bus_bind; [apply keeps_bus_write_PORTB | intros _].
  apply keeps_bus_WDDelay.
Qed.

Lemma keeps_bus_DisplayError (pin : Z) : keeps_bus (DisplayError pin).
Proof. exact (keeps_bus_led_flash 6 pin). Qed.

Lemma keeps_bus_Pulse (pin : Z) : keeps_bus (Pulse pin).
Proof. exact (keeps_bus_led_flash 0 pin). Qed.

Lemma keeps_bus_Flash_loop (n : nat) : forall value zeros : Z,
  keeps_bus (Flash_loop n value zeros).
Proof.
  induction n as [|n IH]; intros value zeros; cbn [Flash_loop].
  - apply keeps_bus_ret.
  - cbv zeta.
    destruct (negb (zeros =? 0) ||
              negb (Z.land (Z.shiftr value (Z.of_nat n)) 1 =? 0) ||
              (Z.of_nat n =? 0)); [|apply IH].
    apply keeps_bus_bind; [|intros _; apply IH].
    destruct (negb (Z.land (Z.shiftr value (Z.of_nat n)) 1 =? 0));
      apply keeps_bus_Pulse.
Qed.

Lemma keeps_bus_load (i : Z) : keeps_bus (load_DataBytes i).
Proof.
  apply keeps_bus_quiet. intros s r s' H. unfold load_DataBytes in H.
  destruct (i <? 0); [discriminate H|].
  destruct (nth_error (DataBytes s) (Z.to_nat i)); [|discriminate H].
  injection H as <- <-. split; [reflexivity|].
  exists []. rewrite app_nil_r. split; constructor.
Qed.

Lemma keeps_bus_store (i v : Z) : keeps_bus (store_DataBytes i v).
Proof.
  apply keeps_bus_quiet. intros s r s' H. unfold store_DataBytes in H.
  destruct (i <? 0); [discriminate H|].
  destruct (list_set (DataBytes s) (Z.to_nat i) v); [|discriminate H].
  injection H as <- <-. split; [reflexivity|].
  exists []. rewrite app_nil_r. split; constructor.
Qed.

Lemma keeps_bus_OneWireCRC_loop (n : nat) : forall j crc : Z,
  keeps_bus (OneWireCRC_loop n j crc).
Proof.
  induction n as [|n IH]; intros j crc; cbn [OneWireCRC_loop].
  - apply keeps_bus_ret.
  - apply keeps_bus_bind; [apply keeps_bus_load | intros b; apply IH].
Qed.

Section KeepsBus.

Variable bus : list event -> bool.

Lemma keeps_bus_OneWireReset : keeps_bus (OneWireReset bus).
Proof.
  apply keeps_bus_run. intros s. eexists. eexists.
  split; [apply OneWireReset_run | apply driver_events_reset].
Qed.

Lemma keeps_bus_OneWireWrite (data : Z) : keeps_bus (OneWireWrite data).
Proof.
  apply keeps_bus_run. intros s. eexists. eexists.
  split; [apply OneWireWrite_run | apply driver_events_write].
Qed.

Lemma keeps_bus_OneWireRead : keeps_bus (OneWireRead bus).
Proof.
  apply keeps_bus_run. intros s. eexists. eexists.
  split; [apply OneWireRead_run | apply driver_events_read].
Qed.

Lemma keeps_bus_poll (fuel : nat) : keeps_bus (poll bus fuel).
Proof.
  induction fuel as [|fuel IH]; cbn [poll]; [apply keeps_bus_fail|].
  apply keeps_bus_bind; [apply keeps_bus_OneWireRead|].
  intros b. destruct (negb (b =? 255)); [exact IH | apply keeps_bus_ret].
Qed.

Lemma keeps_bus_OneWireReadBytes_loop (n : nat) : forall i : Z,
  keeps_bus (OneWireReadBytes_loop bus n i).
Proof.
  induction n as [|n IH]; intros i; cbn [OneWireReadBytes_loop].
  - apply keeps_bus_ret.
  - apply keeps_bus_bind; [apply keeps_bus_OneWireRead|]. intros b.
    apply keeps_bus_bind; [apply keeps_bus_store | intros _; apply IH].
Qed.

Lemma keeps_bus_acquire (fuel : nat) : keeps_bus (acquire bus fuel).
Proof.
  unfold acquire.
  apply keeps_bus_bind; [apply keeps_bus_OneWireWrite | intros _].
  apply keeps_bus_bind; [apply keeps_bus_OneWireWrite | intros _].
  apply keeps_bus_bind; [apply keeps_bus_poll | intros _].
  apply keeps_bus_bind; [apply keeps_bus_OneWireReset | intros _].
  apply keeps_bus_bind; [apply keeps_bus_OneWireWrite | intros _].
  apply keeps_bus_bind; [apply keeps_bus_OneWireWrite | intros _].
  apply keeps_bus_OneWireReadBytes_loop.
Qed.

Lemma keeps_bus_Temperature (fuel : nat) : keeps_bus (Temperature bus fuel).
Proof.
  unfold Temperature.
  apply keeps_bus_bind; [apply keeps_bus_OneWireReset | intros r].
  apply keeps_bus_bind.
  - destruct (negb (r =? 0)).
    + apply keeps_bus_bind; [apply keeps_bus_DisplayError|].
      intros _. apply keeps_bus_ret.
    + apply keeps_bus_bind; [apply keeps_bus_acquire | intros _].
      apply keeps_bus_bind; [apply keeps_bus_OneWireCRC_loop | intros c].
      destruct (c =? 0).
      * apply keeps_bus_bind; [|intros w; apply keeps_bus_ret].
        unfold load_DataWords.
        apply keeps_bus_bind; [apply keeps_bus_load | intros lo].
        apply keeps_bus_bind; [apply keeps_bus_load | intros hi].
        apply keeps_bus_ret.
      * apply keeps_bus_bind; [apply keeps_bus_DisplayError|].
        intros _. apply keeps_bus_ret.
  - intros [v|]; apply keeps_bus_ret.
Qed.

Lemma keeps_bus_loop (fuel : nat) : keeps_bus (loop bus fuel).
Proof.
  unfold loop.
  apply keeps_bus_bind; [apply keeps_bus_WDDelay | intros _].
  apply keeps_bus_bind; [apply keeps_bus_WDDelay | intros _].
  apply keeps_bus_bind; [apply keeps_bus_Temperature | intros temp].
  apply keeps_bus_bind.
  - destruct (temp <? 0); [|apply keeps_bus_ret].
    apply keeps_bus_bind; [apply keeps_bus_Pulse|].
    intros _. apply keeps_bus_ret.
  - intros t. apply keeps_bus_Flash_loop.
Qed.

End KeepsBus.

Lemma land_254_released (d : Z) :
  is_byte d -> Z.testbit d OneWirePin = false -> Z.land d 254 = d.
Proof.
  intros Hd H0. apply Z.bits_inj'. intros n Hn. rewrite Z.land_spec.
  destruct (Z.eq_dec n 0) as [->|Hn0].
  - change OneWirePin with 0 in H0. rewrite H0. reflexivity.
  - rewrite <- (u8_id d Hd), testbit_u8.
    destruct (Z.ltb_spec n 8) as [Hlt|Hge]; [|reflexivity].
    assert (E : (n =? 0) || Z.testbit 254 n = true).
    { apply (range_forall 8 (fun n => (n =? 0) || Z.testbit 254 n));
        [reflexivity | lia]. }
    apply Z.eqb_neq in Hn0. rewrite Hn0 in E. cbn [orb] in E.
    rewrite E, andb_true_r. reflexivity.
Qed.

Lemma keeps_bus_idle {A} (c : M A) (s : hw) (r : A) (s' : hw) :
  keeps_bus c ->
  bus_idle (trace s) -> is_byte (DDRB s) ->
  Z.testbit (DDRB s) OneWirePin = false ->
  c s = Some (r, s') ->
  DDRB s' = DDRB s /\
  exists ws : list Z,
    scan (trace s') = (None, ws) /\
    Forall (fun w => w = 6 \/ w = 60 \/ w = 480) ws.
Proof.
  intros Hc Hidle Hd H0 H. destruct (Hc s r s' H) as (Hddr & x & Ht & Hx).
  split.
  - destruct Hddr as [E|E]; [exact E|]. rewrite E.
    apply land_254_released; assumption.
  - rewrite Ht, scan_idle_app by exact Hidle.
    destruct (driver_events_scan x Hx []) as (ws & Hs & Hf).
    exists ws. split; [exact Hs | exact Hf].
Qed.

(** X12: the driver never holds the line low outside its pulses.  From a
    state with the bus idle and the bus pin an input, whenever Temperature
    or loop returns, every low pulse it put on the line was 6, 60 or 480
    microseconds wide and was followed by a release, the line is released at
    the end, and the direction register is as it was. *)
Theorem driver_releases_line
    (bus : list event -> bool) (fuel : nat) (s : hw) :
  bus_idle (trace s) ->
  is_byte (DDRB s) ->
  Z.testbit (DDRB s) OneWirePin = false ->
  (forall (v : Z) (s' : hw),
     Temperature bus fuel s = Some (v, s') ->
     DDRB s' = DDRB s /\
     exists ws : list Z,
       scan (trace s') = (None, ws) /\
       Forall (fun w => w = 6 \/ w = 60 \/ w = 480) ws) /\
  (forall s' : hw,
     loop bus fuel s = Some (tt, s') ->
     DDRB s' = DDRB s /\
     exists ws : list Z,
       scan (trace s') = (None, ws) /\
       Forall (fun w => w = 6 \/ w = 60 \/ w = 480) ws).
Proof.
  intros Hidle Hd H0. split.
  - intros v s' H.
    apply (keeps_bus_idle (Temperature bus fuel) s v s');
      [apply keeps_bus_Temperature | assumption..].
  - intros s' H.
    apply (keeps_bus_idle (loop bus fuel) s tt s');
      [apply keeps_bus_loop | assumption..].
Qed.

Lemma driver_releases_line_witness :
  let bus := scripted_bus (sensor_script power_on_scratchpad) in
  bus_idle (trace after_setup) /\
  is_byte (DDRB after_setup) /\
  Z.testbit (DDRB after_setup) OneWirePin = false /\
  (forall (v : Z) (s' : hw),
     Temperature bus 1 after_setup = Some (v, s') ->
     DDRB s' = DDRB after_setup /\
     exists ws : list Z,
       scan (trace s') = (None, ws) /\
       Forall (fun w => w = 6 \/ w = 60 \/ w = 480) ws) /\
  (forall s' : hw,
     loop bus 1 after_setup = Some (tt, s') ->
     DDRB s' = DDRB after_setup /\
     exists ws : list Z,
       scan (trace s') = (None, ws) /\
       Forall (fun w => w = 6 \/ w = 60 \/ w = 480) ws).
Proof.
  intros bus.
  assert (H1 : bus_idle (trace after_setup)) by reflexivity.
  assert (H2 : is_byte (DDRB after_setup)) by (cbn; unfold is_byte; lia).
  assert (H3 : Z.testbit (DDRB after_setup) OneWirePin = false)
    by reflexivity.
  split; [exact H1|]. split; [exact H2|]. split; [exact H3|].
  exact (driver_releases_line bus 1 after_setup H1 H2 H3).
Defined.

Example loop_power_on_returns :
  exists s' : hw,
    loop (scripted_bus
            (sensor_script power_on_scratchpad)) 1 after_setup =
    Some (tt, s') /\
    length (snd (scan (trace s'))) = 114%nat.
Proof. eexists. split; vm_compute; reflexivity. Qed.

(** ** What a read cycle keeps and costs *)

Lemma DisplayError_keeps (pin : Z) (s s' : hw) :
  DisplayError pin s = Some (tt, s') ->
  DataBytes s' = DataBytes s /\ elapsed (trace s') = elapsed (trace s).
Proof.
  unfold DisplayError, bind, gets, write_PORTB, modify.
  rewrite WDDelay_run. rewrite WDDelay_run. intros H. injection H as <-.
  cbn [slept log set_PORTB trace DataBytes wd_flag].
  split; [reflexivity|]. rewrite !elapsed_app.
  unfold sleep_events. destruct (wd_flag s); cbn; lia.
Qed.

Lemma to_int16_range (x : Z) : -32768 <= to_int16 x < 32768.
Proof.
  unfold to_int16, u16. cbv zeta.
  pose proof (Z.mod_pos_bound x 65536 ltac:(lia)) as Hb.
  destruct (Z.ltb_spec (x mod 65536) 32768); lia.
Qed.

(** X2: a read cycle keeps the buffer well formed and its result in range:
    from a buffer of 9 bytes, whenever Temperature returns, the buffer
    still has 9 entries, all of them bytes, and the value returned is a
    signed 16-bit number; without presence the buffer is not touched. *)
Theorem Temperature_keeps_buffer
    (bus : list event -> bool) (fuel : nat) (s s' : hw) (v : Z) :
  length (DataBytes s) = 9%nat ->
  Forall is_byte (DataBytes s) ->
  Temperature bus fuel s = Some (v, s') ->
  length (DataBytes s') = 9%nat /\
  Forall is_byte (DataBytes s') /\
  -32768 <= v < 32768 /\
  (reset_level bus s = true -> DataBytes s' = DataBytes s).
Proof.
  intros Hlen Hb H. destruct (reset_level bus s) eqn:Hl.
  - destruct (DisplayError_total RedPin (bus_run (reset_events true) s))
      as [s0 Hd].
    rewrite (Temperature_absent bus fuel s s0 Hl Hd) in H.
    injection H as <- <-.
    destruct (DisplayError_keeps _ _ _ Hd) as [E _].
    cbn [bus_run DataBytes] in E. rewrite E.
    repeat split; try assumption; try lia.
  - destruct (acquire bus fuel (bus_run (reset_events false) s))
      as [[[] s4]|] eqn:Ha.
    2:{ rewrite (Temperature_hang bus fuel s Hl Ha) in H. discriminate H. }
    destruct (acquire_buffer bus fuel (bus_run (reset_events false) s) s4
                Hlen Ha) as [Hlen4 Hb4].
    destruct (Z.eq_dec (crc8_ref (DataBytes s4)) 0) as [Hc|Hc].
    + rewrite (Temperature_valid bus fuel s s4 Hl Hlen Ha Hc) in H.
      injection H as <- <-.
      repeat split; try assumption; try apply to_int16_range.
      all: try (intros E; discriminate E).
    + destruct (DisplayError_total GreenPin s4) as [s0 Hd].
      rewrite (Temperature_crc_error bus fuel s s4 s0 Hl Hlen Ha Hc Hd) in H.
      injection H as <- <-.
      destruct (DisplayError_keeps _ _ _ Hd) as [E _]. rewrite E.
      repeat split; try assumption; try lia.
      all: try (intros E'; discriminate E').
Qed.

Lemma Temperature_keeps_buffer_witness :
  let bus := scripted_bus (sensor_script minus10_scratchpad) in
  let s' := state_after (Temperature bus 1) power_on_state in
  length (DataBytes power_on_state) = 9%nat /\
  Forall is_byte (DataBytes power_on_state) /\
  Temperature bus 1 power_on_state = Some (-162, s') /\
  length (DataBytes s') = 9%nat /\
  Forall is_byte (DataBytes s') /\
  -32768 <= -162 < 32768 /\
  (reset_level bus power_on_state = true ->
   DataBytes s' = DataBytes power_on_state).
Proof.
  intros bus s'.
  assert (H1 : length (DataBytes power_on_state) = 9%nat) by reflexivity.
  assert (H2 : Forall is_byte (DataBytes power_on_state))
    by exact power_on_state_bytes.
  assert (H3 : Temperature bus 1 power_on_state = Some (-162, s'))
    by (vm_compute; reflexivity).
  split; [exact H1|]. split; [exact H2|]. split; [exact H3|].
  exact (Temperature_keeps_buffer bus 1 power_on_state s' (-162) H1 H2 H3).
Defined.

Section CycleTime.

Variable bus : list event -> bool.

Lemma elapsed_reads (k : nat) : forall s : hw,
  elapsed (trace (reads bus k s)) = elapsed (trace s) + 560 * Z.of_nat k.
Proof.
  induction k as [|k IH]; intros s; [cbn [reads]; lia|].
  cbn [reads]. rewrite IH. cbn [read_state bus_run trace].
  rewrite elapsed_app, elapsed_read_slots, read_bits_length. lia.
Qed.

Lemma elapsed_read_history (n : nat) : forall h : list event,
  elapsed (read_history bus n h) = elapsed h + 560 * Z.of_nat n.
Proof.
  induction n as [|n IH]; intros h; [cbn [read_history]; lia|].
  cbn [read_history]. rewrite IH.
  rewrite elapsed_app, elapsed_read_slots, read_bits_length. lia.
Qed.

Lemma elapsed_scratch_state (s3 : hw) :
  elapsed (trace (scratch_state bus s3)) = elapsed (trace s3) + 2080.
Proof.
  cbn [scratch_state bus_run trace].
  rewrite !elapsed_app, !elapsed_write_slots, !bits_lsb_length.
  change (elapsed (reset_events (reset_level bus s3))) with 960. lia.
Qed.

Lemma elapsed_conv_state (s1 : hw) :
  elapsed (trace (conv_state s1)) = elapsed (trace s1) + 1120.
Proof.
  cbn [conv_state bus_run trace].
  rewrite !elapsed_app, !elapsed_write_slots, !bits_lsb_length. lia.
Qed.

Lemma acquire_elapsed (fuel : nat) (s1 s4 : hw) :
  length (DataBytes s1) = 9%nat ->
  acquire bus fuel s1 = Some (tt, s4) ->
  exists n : nat,
    (n < fuel)%nat /\
    poll bus fuel (conv_state s1) =
      Some (tt, reads bus (S n) (conv_state s1)) /\
    elapsed (trace s4) =
      elapsed (trace s1) + 8240 + 560 * Z.of_nat (S n).
Proof.
  intros Hlen Ha. rewrite acquire_poll in Ha.
  destruct (poll bus fuel (conv_state s1)) as [[[] s3]|] eqn:Hp;
    [|discriminate Ha].
  destruct (poll_inv bus fuel _ _ Hp) as (n & Hn & E & _).
  exists n. split; [exact Hn|]. split; [rewrite <- E; reflexivity|].
  destruct (OneWireReadBytes_9 bus (scratch_state bus s3))
    as (s4' & Hrun & _ & Htr).
  { cbn [scratch_state bus_run DataBytes].
    rewrite (poll_DataBytes bus _ _ _ Hp). exact Hlen. }
  rewrite Hrun in Ha. injection Ha as <-.
  rewrite Htr, elapsed_read_history, elapsed_scratch_state, E.
  rewrite elapsed_reads, elapsed_conv_state. lia.
Qed.

End CycleTime.

(** X15: the bus time of a read cycle.  Without presence Temperature
    spends the 960us of the reset in timed delays.  With presence it spends
    9200us (two resets, four command bytes, nine scratchpad bytes) and 560us
    more for every byte read of the poll, whether or not the CRC holds. *)
Theorem Temperature_bus_time
    (bus : list event -> bool) (fuel : nat) (s s' : hw) (v : Z) :
  length (DataBytes s) = 9%nat ->
  Temperature bus fuel s = Some (v, s') ->
  (reset_level bus s = true /\
   elapsed (trace s') = elapsed (trace s) + 960) \/
  (reset_level bus s = false /\
   exists n : nat,
     (n < fuel)%nat /\
     poll bus fuel (conv_state (bus_run (reset_events false) s)) =
       Some (tt, reads bus (S n)
                   (conv_state (bus_run (reset_events false) s))) /\
     elapsed (trace s') =
       elapsed (trace s) + 9200 + 560 * Z.of_nat (S n)).
Proof.
  intros Hlen H. destruct (reset_level bus s) eqn:Hl.
  - left. split; [reflexivity|].
    destruct (DisplayError_total RedPin (bus_run (reset_events true) s))
      as [s0 Hd].
    rewrite (Temperature_absent bus fuel s s0 Hl Hd) in H.
    injection H as <- <-.
    destruct (DisplayError_keeps _ _ _ Hd) as [_ E]. rewrite E.
    cbn [bus_run trace]. rewrite elapsed_app. reflexivity.
  - right. split; [reflexivity|].
    destruct (acquire bus fuel (bus_run (reset_events false) s))
      as [[[] s4]|] eqn:Ha.
    2:{ rewrite (Temperature_hang bus fuel s Hl Ha) in H. discriminate H. }
    destruct (acquire_elapsed bus fuel (bus_run (reset_events false) s) s4
                Hlen Ha) as (n & Hn & Hp & He).
    exists n. split; [exact Hn|]. split; [exact Hp|].
    assert (E4 : elapsed (trace s4) =
                 elapsed (trace s) + 9200 + 560 * Z.of_nat (S n)).
    { rewrite He. cbn [bus_run trace]. rewrite elapsed_app.
      change (elapsed (reset_events false)) with 960. lia. }
    destruct (Z.eq_dec (crc8_ref (DataBytes s4)) 0) as [Hc|Hc].
    + rewrite (Temperature_valid bus fuel s s4 Hl Hlen Ha Hc) in H.
      injection H as <- <-. exact E4.
    + destruct (DisplayError_total GreenPin s4) as [s0 Hd].
      rewrite (Temperature_crc_error bus fuel s s4 s0 Hl Hlen Ha Hc Hd) in H.
      injection H as <- <-.
      destruct (DisplayError_keeps _ _ _ Hd) as [_ E]. rewrite E. exact E4.
Qed.

Lemma Temperature_bus_time_witness :
  let bus := scripted_bus (sensor_script power_on_scratchpad) in
  let s' := state_after (Temperature bus 1) after_setup in
  length (DataBytes after_setup) = 9%nat /\
  Temperature bus 1 after_setup = Some (1360, s') /\
  elapsed (trace s') = 9760.
Proof.
  intros bus s'.
  assert (H1 : length (DataBytes after_setup) = 9%nat) by reflexivity.
  assert (H2 : Temperature bus 1 after_setup = Some (1360, s'))
    by (vm_compute; reflexivity).
  split; [exact H1|]. split; [exact H2|].
  destruct (Temperature_bus_time bus 1 after_setup s' 1360 H1 H2)
    as [[Hl _]|[_ (n & Hn & _ & He)]].
  - discriminate Hl.
  - rewrite He. assert (n = 0%nat) by lia. subst n. reflexivity.
Defined.
